(** * Meta Ads reporting automation: the metric pipeline, embedded and verified

    A shallow embedding of the metric-normalisation core of the repository
    ([src/meta_api_client.py], [src/data_validator.py],
    [src/performance_analyzer.py], [src/pipeline_manager.py]) together with
    the properties its specification states about it.

    Conventions of the embedding.
    - A Python value is a [pyval]; a [dict] with string keys is a finite map
      ([gmap string pyval]), a [list] is a [list pyval].
    - Code that can raise returns a [result]; the exception class is kept.
    - Python's [int] is [Z]; Python's [float] is the kernel's binary64
      [float], so that [int(180 * 0.35)] is [62] here as it is in Python.
      Conversions between the two ([float(n)], [int(x)], [n / m],
      [round(x, 2)], [float(s)]) go through [SpecFloat]'s correctly rounded
      [binary_normalize].
    - Objects that the code mutates while they are shared (the list sorted
      by [analyze_segments], the records handled by
      [_filter_fields_for_json]) live in an explicit store. *)

From Stdlib Require Import ZArith String Ascii List Lia Floats DecimalString.
From stdpp Require Import base option gmap strings list.

#[local] Open Scope string_scope.
#[local] Open Scope Z_scope.
#[local] Unset Elimination Schemes.
#[local] Set Warnings "-inexact-float".

(** ** Python values, exceptions and builtins *)

Module Py.

Inductive exn : Type :=
| ValueError
| TypeError
| KeyError
| AttributeError
| IndexError
| ZeroDivisionError
| OverflowError
| UnboundLocalError
| OtherError.

Inductive result (A : Type) : Type :=
| Ok (a : A)
| Raise (e : exn).

Arguments Ok {A} a.
Arguments Raise {A} e.

#[global] Instance result_ret : MRet result := @Ok.

#[global] Instance result_bind : MBind result :=
  λ A B f m, match m with Ok a => f a | Raise e => Raise e end.

#[global] Instance result_fmap : FMap result :=
  λ A B f m, match m with Ok a => Ok (f a) | Raise e => Raise e end.

Definition raises {A} (m : result A) : Prop :=
  match m with Ok _ => False | Raise _ => True end.

Definition returns {A} (m : result A) : Prop :=
  match m with Ok _ => True | Raise _ => False end.

Inductive pyval : Type :=
| PNone
| PBool (b : bool)
| PInt (z : Z)
| PFloat (x : float)
| PStr (s : string)
| PList (l : list pyval)
| PDict (d : gmap string pyval).

Abbreviation pydict := (gmap string pyval).

(** Truth value testing ([if x:], [not x], [x and y]). *)
Definition truthy (v : pyval) : bool :=
  match v with
  | PNone => false
  | PBool b => b
  | PInt z => negb (Z.eqb z 0)
  | PFloat x => negb (PrimFloat.eqb x 0)
  | PStr s => negb (String.eqb s "")
  | PList l => match l with [] => false | _ => true end
  | PDict d => match map_to_list d with [] => false | _ => true end
  end.

Definition is_list (v : pyval) : bool :=
  match v with PList _ => true | _ => false end.

Definition is_dict (v : pyval) : bool :=
  match v with PDict _ => true | _ => false end.

(** [isinstance(v, float)] and [isinstance(v, (int, float))]; [bool] is a
    subclass of [int]. *)
Definition is_float (v : pyval) : bool :=
  match v with PFloat _ => true | _ => false end.

Definition is_int_or_float (v : pyval) : bool :=
  match v with PBool _ | PInt _ | PFloat _ => true | _ => false end.

(** *** Conversions between [int] and [float] *)

(** The double nearest to an integer (ties to even); infinite when the
    integer is out of range. *)
Definition float_of_Z (z : Z) : float :=
  SF2Prim (binary_normalize prec emax z 0 false).

(** The double nearest to [n / d], for [d > 0].  The quotient is taken with
    at least 64 significant bits and a sticky last bit, which is enough for
    [binary_normalize] to round the exact ratio. *)
Definition float_of_ratio (n : Z) (d : positive) : float :=
  match n with
  | Z0 => PrimFloat.zero
  | _ =>
      let a := Z.abs n in
      let s := Z.max 0 (64 + Z.log2 (Zpos d) - Z.log2 a) in
      let q := (a * 2 ^ s) / Zpos d in
      let r := (a * 2 ^ s) mod Zpos d in
      let m := 2 * q + (if Z.eqb r 0 then 0 else 1) in
      SF2Prim (binary_normalize prec emax (if n <? 0 then - m else m) (- s - 1) false)
  end.

(** The implicit conversion of an [int] operand: [OverflowError] when it is
    too large for a double. *)
Definition int_to_float (z : Z) : result float :=
  let x := float_of_Z z in
  if is_infinity x then Raise OverflowError else Ok x.

(** [int(x)]: truncation towards zero. *)
Definition float_trunc (x : float) : result Z :=
  match Prim2SF x with
  | S754_zero _ => Ok 0
  | S754_finite s m e =>
      let a := if 0 <=? e then Zpos m * 2 ^ e else Zpos m / 2 ^ (- e) in
      Ok (if s then - a else a)
  | S754_infinity _ => Raise OverflowError
  | S754_nan => Raise ValueError
  end.

(** The integer nearest to [n / d] for [d > 0], ties to even. *)
Definition div_half_even (n d : Z) : Z :=
  let f := n / d in
  let r := n mod d in
  match 2 * r ?= d with
  | Lt => f
  | Gt => f + 1
  | Eq => if Z.even f then f else f + 1
  end.

(** [round(x, 2)]: the exact value of [x] is rounded to two decimals, ties
    to even, and the decimal is read back as a double.  Infinities and NaN
    are returned unchanged, and the sign of a zero result is the sign of
    [x]. *)
Definition round2 (x : float) : float :=
  match Prim2SF x with
  | S754_finite s m e =>
      let n :=
        if 0 <=? e then Zpos m * 2 ^ e * 100
        else div_half_even (Zpos m * 100) (2 ^ (- e)) in
      if Z.eqb n 0 then (if s then neg_zero else PrimFloat.zero)
      else float_of_ratio (if s then - n else n) 100
  | _ => x
  end.

(** *** Numbers *)

Inductive num : Type :=
| NInt (z : Z)
| NFloat (x : float).

Definition as_num (v : pyval) : option num :=
  match v with
  | PBool b => Some (NInt (Z.b2z b))
  | PInt z => Some (NInt z)
  | PFloat x => Some (NFloat x)
  | _ => None
  end.

Definition of_num (n : num) : pyval :=
  match n with NInt z => PInt z | NFloat x => PFloat x end.

Definition to_float (n : num) : result float :=
  match n with NInt z => int_to_float z | NFloat x => Ok x end.

(** Arithmetic.  [int op int] stays an [int] for [*] and [+]; with a
    [float] operand the [int] is converted first. *)
Definition num_mul (a b : num) : result num :=
  match a, b with
  | NInt x, NInt y => Ok (NInt (x * y))
  | _, _ => x ← to_float a; y ← to_float b; Ok (NFloat (x * y)%float)
  end.

Definition num_add (a b : num) : result num :=
  match a, b with
  | NInt x, NInt y => Ok (NInt (x + y))
  | _, _ => x ← to_float a; y ← to_float b; Ok (NFloat (x + y)%float)
  end.

Definition num_sub (a b : num) : result num :=
  match a, b with
  | NInt x, NInt y => Ok (NInt (x - y))
  | _, _ => x ← to_float a; y ← to_float b; Ok (NFloat (x - y)%float)
  end.

(** True division [a / b].  [int / int] is the correctly rounded quotient
    of the two integers. *)
Definition num_div (a b : num) : result num :=
  match a, b with
  | NInt x, NInt y =>
      match y with
      | Z0 => Raise ZeroDivisionError
      | Zpos d =>
          let r := float_of_ratio x d in
          if is_infinity r then Raise OverflowError else Ok (NFloat r)
      | Zneg d =>
          let r := float_of_ratio (- x) d in
          if is_infinity r then Raise OverflowError else Ok (NFloat r)
      end
  | _, _ =>
      x ← to_float a; y ← to_float b;
      if PrimFloat.eqb y 0 then Raise ZeroDivisionError
      else Ok (NFloat (x / y)%float)
  end.

(** Exact comparison of an integer with a double; [None] against NaN. *)
Definition Z_float_compare (z : Z) (x : float) : option comparison :=
  match Prim2SF x with
  | S754_nan => None
  | S754_zero _ => Some (z ?= 0)
  | S754_infinity s => Some (if s then Gt else Lt)
  | S754_finite s m e =>
      let v := if s then Zneg m else Zpos m in
      Some (if 0 <=? e then z ?= v * 2 ^ e else z * 2 ^ (- e) ?= v)
  end.

Definition num_compare (a b : num) : option comparison :=
  match a, b with
  | NInt x, NInt y => Some (x ?= y)
  | NInt x, NFloat y => Z_float_compare x y
  | NFloat x, NInt y => CompOpp <$> Z_float_compare y x
  | NFloat x, NFloat y =>
      match PrimFloat.compare x y with
      | FEq => Some Eq
      | FLt => Some Lt
      | FGt => Some Gt
      | FNotComparable => None
      end
  end.

Definition num_gt (a b : num) : bool :=
  match num_compare a b with Some Gt => true | _ => false end.
Definition num_ge (a b : num) : bool :=
  match num_compare a b with Some Gt | Some Eq => true | _ => false end.
Definition num_lt (a b : num) : bool :=
  match num_compare a b with Some Lt => true | _ => false end.
Definition num_le (a b : num) : bool :=
  match num_compare a b with Some Lt | Some Eq => true | _ => false end.
Definition num_eq (a b : num) : bool :=
  match num_compare a b with Some Eq => true | _ => false end.

(** Ordering comparisons against a number raise [TypeError] on [None],
    strings, lists and dicts. *)
Definition the_num (v : pyval) : result num :=
  match as_num v with Some n => Ok n | None => Raise TypeError end.

Definition py_gt (v : pyval) (c : num) : result bool :=
  n ← the_num v; Ok (num_gt n c).

Definition py_ge (v : pyval) (c : num) : result bool :=
  n ← the_num v; Ok (num_ge n c).

Definition py_le (v : pyval) (c : num) : result bool :=
  n ← the_num v; Ok (num_le n c).

(** [v == c] for a number [c]: never raises. *)
Definition py_eq_num (v : pyval) (c : num) : bool :=
  match as_num v with Some n => num_eq n c | None => false end.

(** [v == s] for a string literal [s]. *)
Definition py_eq_str (v : pyval) (s : string) : bool :=
  match v with PStr t => String.eqb t s | _ => false end.

(** [v == []]. *)
Definition is_empty_list (v : pyval) : bool :=
  match v with PList [] => true | _ => false end.

(** *** Numeric literals in strings: what [int(s)] and [float(s)] accept *)

Definition is_space (c : ascii) : bool :=
  let n := nat_of_ascii c in
  ((9 <=? n) && (n <=? 13) || (28 <=? n) && (n <=? 32))%nat.

Definition is_digit (c : ascii) : bool :=
  let n := nat_of_ascii c in ((48 <=? n) && (n <=? 57))%nat.

Definition digit_val (c : ascii) : Z := Z.of_nat (nat_of_ascii c) - 48.

Definition lower (c : ascii) : ascii :=
  let n := nat_of_ascii c in
  if ((65 <=? n) && (n <=? 90))%nat then ascii_of_nat (n + 32) else c.

Definition lower_string (s : string) : string :=
  string_of_list_ascii (lower <$> list_ascii_of_string s).

Fixpoint lstrip (cs : list ascii) : list ascii :=
  match cs with
  | c :: cs' => if is_space c then lstrip cs' else cs
  | [] => []
  end.

Definition strip (cs : list ascii) : list ascii :=
  rev (lstrip (rev (lstrip cs))).

(** A digit part: digits, with single underscores allowed between digits.
    Returns the value read so far, the number of digits and the rest. *)
Fixpoint read_digits (acc : Z) (n : nat) (cs : list ascii)
  : Z * nat * list ascii :=
  match cs with
  | c :: cs' =>
      if is_digit c then read_digits (acc * 10 + digit_val c) (S n) cs'
      else if Ascii.eqb c "_" then
        match cs' with
        | d :: _ =>
            if is_digit d && (0 <? n)%nat then read_digits acc n cs'
            else (acc, n, cs)
        | [] => (acc, n, cs)
        end
      else (acc, n, cs)
  | [] => (acc, n, cs)
  end.

Definition read_sign (cs : list ascii) : bool * list ascii :=
  match cs with
  | c :: cs' =>
      if Ascii.eqb c "-" then (true, cs')
      else if Ascii.eqb c "+" then (false, cs')
      else (false, cs)
  | [] => (false, cs)
  end.

Definition parse_int (s : string) : option Z :=
  let '(neg, cs) := read_sign (strip (list_ascii_of_string s)) in
  match read_digits 0 0 cs with
  | (v, S _, []) => Some (if neg then - v else v)
  | _ => None
  end.

Definition read_exponent (cs : list ascii) : option (Z * list ascii) :=
  match cs with
  | c :: cs' =>
      if Ascii.eqb c "e" || Ascii.eqb c "E" then
        let '(neg, cs'') := read_sign cs' in
        match read_digits 0 0 cs'' with
        | (v, S _, rest) => Some (if neg then - v else v, rest)
        | _ => None
        end
      else Some (0, cs)
  | [] => Some (0, cs)
  end.

(** The double nearest to [m * 10 ^ e]. *)
Definition float_of_decimal (m e : Z) : float :=
  match e with
  | Zneg p => float_of_ratio m (Pos.pow 10 p)
  | _ => float_of_Z (m * 10 ^ e)
  end.

Definition parse_special (cs : list ascii) : option float :=
  let w := string_of_list_ascii (lower <$> cs) in
  if String.eqb w "inf" || String.eqb w "infinity" then Some infinity
  else if String.eqb w "nan" then Some nan
  else None.

Definition parse_float (s : string) : option float :=
  let '(neg, cs) := read_sign (strip (list_ascii_of_string s)) in
  let sign x := if neg then (- x)%float else x in
  match parse_special cs with
  | Some x => Some (sign x)
  | None =>
      let '(ip, ni, cs1) := read_digits 0 0 cs in
      let '(fp, nf, cs2) :=
        match cs1 with
        | c :: cs' =>
            if Ascii.eqb c "." then
              let '(v, n, rest) := read_digits 0 0 cs' in
              match n, cs' with
              | O, d :: _ =>
                  if Ascii.eqb d "_" then (0, O, cs1) else (v, n, rest)
              | _, _ => (v, n, rest)
              end
            else (0, O, cs1)
        | [] => (0, O, cs1)
        end in
      match (ni + nf)%nat with
      | O => None
      | S _ =>
          match read_exponent cs2 with
          | Some (e, []) =>
              let m := ip * 10 ^ Z.of_nat nf + fp in
              Some (sign (float_of_decimal m (e - Z.of_nat nf)))
          | _ => None
          end
      end
  end.

(** *** The builtins [float()] and [int()] *)

Definition py_float (v : pyval) : result float :=
  match v with
  | PBool b => Ok (float_of_Z (Z.b2z b))
  | PInt z => int_to_float z
  | PFloat x => Ok x
  | PStr s => match parse_float s with Some x => Ok x | None => Raise ValueError end
  | _ => Raise TypeError
  end.

Definition py_int (v : pyval) : result Z :=
  match v with
  | PBool b => Ok (Z.b2z b)
  | PInt z => Ok z
  | PFloat x => float_trunc x
  | PStr s => match parse_int s with Some z => Ok z | None => Raise ValueError end
  | _ => Raise TypeError
  end.

(** [int(float(v))]. *)
Definition py_int_float (v : pyval) : result Z :=
  x ← py_float v; float_trunc x.

(** *** Dictionaries, attribute access and iteration *)

(** [d.get(k, default)] on a known [dict]. *)
Definition dget (d : pydict) (k : string) (dflt : pyval) : pyval :=
  default dflt (d !! k).

(** [v.get(k, default)] on an arbitrary value: only a [dict] has [get]. *)
Definition py_get (v : pyval) (k : string) (dflt : pyval) : result pyval :=
  match v with
  | PDict d => Ok (dget d k dflt)
  | _ => Raise AttributeError
  end.

Definition has_key (d : pydict) (k : string) : bool :=
  bool_decide (is_Some (d !! k)).

(** [isinstance(v, dict) and k in v]. *)
Definition is_dict_with (v : pyval) (k : string) : bool :=
  match v with
  | PDict d => has_key d k
  | _ => false
  end.

(** [for x in v]: the items visited.  A string yields its characters and a
    dict its keys; numbers, booleans and [None] are not iterable. *)
Definition py_iter (v : pyval) : result (list pyval) :=
  match v with
  | PList l => Ok l
  | PStr s => Ok ((λ c, PStr (String c EmptyString)) <$> list_ascii_of_string s)
  | PDict d => Ok ((λ kv, PStr kv.1) <$> map_to_list d)
  | _ => Raise TypeError
  end.

(** [k in v] for a string [k]: key membership on a dict, substring test on
    a string, element membership on a list. *)
Fixpoint is_prefix (p s : list ascii) : bool :=
  match p, s with
  | [], _ => true
  | a :: p', b :: s' => Ascii.eqb a b && is_prefix p' s'
  | _ :: _, [] => false
  end.

Fixpoint substring_in (needle text : list ascii) : bool :=
  is_prefix needle text ||
  match text with
  | [] => false
  | _ :: rest => substring_in needle rest
  end.

Definition str_in (needle text : string) : bool :=
  substring_in (list_ascii_of_string needle) (list_ascii_of_string text).

Definition py_contains (v : pyval) (k : string) : result bool :=
  match v with
  | PDict d => Ok (has_key d k)
  | PStr s => Ok (str_in k s)
  | PList l => Ok (existsb (λ x, py_eq_str x k) l)
  | _ => Raise TypeError
  end.

(** [v[k]] for a string [k]. *)
Definition py_subscript (v : pyval) (k : string) : result pyval :=
  match v with
  | PDict d => match d !! k with Some x => Ok x | None => Raise KeyError end
  | _ => Raise TypeError
  end.

(** Arithmetic on values that must be numbers. *)
Definition py_div (a b : pyval) : result pyval :=
  x ← the_num a; y ← the_num b; of_num <$> num_div x y.

Definition py_mul (a b : pyval) : result pyval :=
  x ← the_num a; y ← the_num b; of_num <$> num_mul x y.

Definition py_sub (a b : pyval) : result pyval :=
  x ← the_num a; y ← the_num b; of_num <$> num_sub x y.

Definition py_add (a b : pyval) : result pyval :=
  x ← the_num a; y ← the_num b; of_num <$> num_add x y.

(** [sorted(l, key=..., reverse=True)]: a stable sort, so that entries with
    equal keys keep their input order: an entry moves behind the entries
    of strictly greater key only. *)
Fixpoint insert_desc {A} (key : A → num) (x : A) (l : list A) : list A :=
  match l with
  | [] => [x]
  | y :: rest =>
      if num_lt (key x) (key y) then y :: insert_desc key x rest else x :: l
  end.

Definition sorted_desc {A} (key : A → num) (l : list A) : list A :=
  foldr (insert_desc key) [] l.

(** [d.get(k, 0)] read as a sort key. *)
Definition num_key (k : string) (d : gmap string pyval) : num :=
  match as_num (dget d k (PInt 0)) with
  | Some n => n
  | None => NInt 0
  end.

End Py.

Import Py.

(** ** The Meta API client ([src/meta_api_client.py]) *)

Module MetaApiClient.

(** *** Shared fragments of the extractors *)

(** The summation loop used for [outbound_clicks] and [conversions]:
<<
    for item in xs:
        if isinstance(item, dict) and 'value' in item:
            total += int(float(item.get('value', 0)))
>> *)
Fixpoint sum_values (xs : list pyval) (total : Z) : result Z :=
  match xs with
  | [] => Ok total
  | item :: rest =>
      if is_dict_with item "value" then
        v ← py_get item "value" (PInt 0);
        n ← py_int_float v;
        sum_values rest (total + n)
      else sum_values rest total
  end.

(** The search loop used for the video counters:
<<
    for action in xs:
        if action.get('action_type') == 'video_view':
            found = int(action.get('value', 0))
            break
>> *)
Fixpoint first_video_view (xs : list pyval) (found : Z) : result Z :=
  match xs with
  | [] => Ok found
  | action :: rest =>
      ty ← py_get action "action_type" PNone;
      if py_eq_str ty "video_view" then
        v ← py_get action "value" (PInt 0);
        py_int v
      else first_video_view rest found
  end.

(** [video = 0; if field: for action in field: ...]. *)
Definition video_count (field : pyval) : result Z :=
  if truthy field then
    xs ← py_iter field;
    first_video_view xs 0
  else Ok 0.

(** [int(impressions * ratio)]. *)
Definition estimate_views (impressions : num) (ratio : float) : result Z :=
  p ← num_mul impressions (NFloat ratio);
  py_int (of_num p).

(** [(count / impressions) * 100]. *)
Definition rate_percent (count impressions : num) : result pyval :=
  r ← num_div count impressions;
  of_num <$> num_mul r (NInt 100).

(** [next((a for a in xs if a.get('action_type') == 'purchase'), None)]. *)
Fixpoint find_purchase (xs : list pyval) : result pyval :=
  match xs with
  | [] => Ok PNone
  | a :: rest =>
      ty ← py_get a "action_type" PNone;
      if py_eq_str ty "purchase" then Ok a else find_purchase rest
  end.

(** The [outbound_clicks_ctr] branch shared by [get_ad_metrics] and
    [_format_breakdown_data]. *)
Definition ctr_destination_of (field : pyval) (impressions outbound_clicks : Z)
  : result pyval :=
  match field with
  | PList (first :: _) =>
      v ← py_get first "value" (PInt 0);
      q ← py_float v;
      Ok (PFloat q)
  | _ =>
      if (0 <? impressions) && (0 <? outbound_clicks) then
        of_num <$> num_div (NInt outbound_clicks) (NInt impressions)
      else Ok (PInt 0)
  end.

(** *** [get_ad_metrics]: the record built from one insight row
    (lines 416-550) *)

Definition metrics_of_insight (metrics_data : pydict) : result pydict :=
  spend ← py_float (dget metrics_data "spend" (PInt 0));
  impressions ← py_int (dget metrics_data "impressions" (PInt 0));
  clicks ← py_int (dget metrics_data "clicks" (PInt 0));
  ctr ← py_float (dget metrics_data "ctr" (PInt 0));
  let metrics : pydict :=
    <["ctr" := PFloat ctr]> (<["clicks" := PInt clicks]>
      (<["impressions" := PInt impressions]> (<["spend" := PFloat spend]> ∅))) in
  (* outbound_clicks: a list or a number *)
  let outbound_clicks := dget metrics_data "outbound_clicks" (PInt 0) in
  outbound_sum ←
    match outbound_clicks with
    | PList items => sum_values items 0
    | _ => if truthy outbound_clicks then py_int_float outbound_clicks else Ok 0
    end;
  let metrics := <["outbound_clicks" := PInt outbound_sum]> metrics in
  (* conversions: a list or a number *)
  let conversions := dget metrics_data "conversions" (PInt 0) in
  conv ←
    match conversions with
    | PList items => sum_values items 0
    | _ => py_int_float conversions
    end;
  let metrics := <["conversions" := PInt conv]> metrics in
  (* cpm and cpa *)
  cpm ←
    (if 0 <? impressions then
       r ← num_div (NFloat spend) (NInt impressions);
       of_num <$> num_mul r (NInt 1000)
     else Ok (PInt 0));
  let metrics := <["cpm" := cpm]> metrics in
  cpa ←
    (if 0 <? conv then of_num <$> num_div (NFloat spend) (NInt conv)
     else Ok (PInt 0));
  let metrics := <["cpa" := cpa]> metrics in
  (* roas from cost_per_action_type *)
  cost_per_action ← py_iter (dget metrics_data "cost_per_action_type" (PList []));
  purchase_action ← find_purchase cost_per_action;
  roas ←
    (if truthy purchase_action then
       v ← py_get purchase_action "value" (PInt 0);
       purchase_value ← py_float v;
       if PrimFloat.ltb 0 spend && PrimFloat.ltb 0 purchase_value then
         of_num <$> num_div (NFloat purchase_value) (NFloat spend)
       else Ok (PInt 0)
     else Ok (PInt 0));
  let metrics := <["roas" := roas]> metrics in
  (* ctr_destination *)
  ctr_destination ←
    ctr_destination_of (dget metrics_data "outbound_clicks_ctr" (PList []))
      impressions outbound_sum;
  let metrics := <["ctr_destination" := ctr_destination]> metrics in
  (* 3 second views, estimated at 35% of the impressions when there is no
     list *)
  let video_thruplay :=
    dget metrics_data "video_thruplay_watched_actions" (PList []) in
  found ← video_count video_thruplay;
  video_3_sec_views ←
    (if negb (truthy video_thruplay) && (0 <? impressions)
     then estimate_views (NInt impressions) 0.35 else Ok found);
  let metrics := <["video_3_sec_views" := PInt video_3_sec_views]> metrics in
  (* 100% watches, estimated at 8% *)
  let video_p100 := dget metrics_data "video_p100_watched_actions" (PList []) in
  found ← video_count video_p100;
  video_p100_watched ←
    (if negb (truthy video_p100) && (0 <? impressions)
     then estimate_views (NInt impressions) 0.08 else Ok found);
  let metrics := <["video_p100_watched" := PInt video_p100_watched]> metrics in
  (* hook rate and viewthrough rate *)
  if 0 <? impressions then
    match metrics !! "video" with
    | Some (PDict video) =>
        let video_views := dget video "views" (PInt 0) in
        let video_p100 := dget video "p100" (PInt 0) in
        use_views ← py_gt video_views (NInt 0);
        hook_rate ←
          (if (use_views : bool) then
             n ← the_num video_views; rate_percent n (NInt impressions)
           else if 0 <? video_3_sec_views
                then rate_percent (NInt video_3_sec_views) (NInt impressions)
                else Ok (PInt 0));
        let metrics := <["hook_rate" := hook_rate]> metrics in
        use_p100 ← py_gt video_p100 (NInt 0);
        viewthrough_rate ←
          (if (use_p100 : bool) then
             n ← the_num video_p100; rate_percent n (NInt impressions)
           else if 0 <? video_p100_watched
                then rate_percent (NInt video_p100_watched) (NInt impressions)
                else Ok (PInt 0));
        Ok (<["viewthrough_rate" := viewthrough_rate]> metrics)
    | _ =>
        hook_rate ←
          (if 0 <? video_3_sec_views
           then rate_percent (NInt video_3_sec_views) (NInt impressions)
           else Ok (PInt 0));
        let metrics := <["hook_rate" := hook_rate]> metrics in
        viewthrough_rate ←
          (if 0 <? video_p100_watched
           then rate_percent (NInt video_p100_watched) (NInt impressions)
           else Ok (PInt 0));
        Ok (<["viewthrough_rate" := viewthrough_rate]> metrics)
    end
  else Ok metrics.

(** The record returned when the API sends no row. *)
Definition empty_metrics : pydict :=
  list_to_map
    [("spend", PFloat 0); ("impressions", PInt 0); ("clicks", PInt 0);
     ("conversions", PInt 0); ("ctr", PFloat 0); ("cpm", PFloat 0);
     ("cpa", PFloat 0); ("roas", PFloat 0); ("outbound_clicks", PInt 0);
     ("ctr_destination", PFloat 0); ("video_3_sec_views", PInt 0);
     ("video_p100_watched", PInt 0); ("hook_rate", PFloat 0);
     ("viewthrough_rate", PFloat 0)].

(** [get_ad_metrics], from the API response on: [data = response.get('data',
    [])], then the first row.  Exceptions are logged and re-raised. *)
Definition get_ad_metrics (response : pydict) : result pydict :=
  let data := dget response "data" (PList []) in
  if truthy data then
    match data with
    | PList (PDict metrics_data :: _) => metrics_of_insight metrics_data
    | PList (_ :: _) => Raise AttributeError
    | PDict _ => Raise KeyError
    | PStr _ => Raise AttributeError
    | _ => Raise TypeError
    end
  else Ok empty_metrics.

(** *** [_extract_metrics_from_insights] (lines 1726-1829) *)




(** *** [_format_breakdown_data] (lines 1468-1607) *)

(** The search loop of the registrations and of the cost per registration:
    the first entry whose [action_type] is on the allow-list. *)
Definition registration_types : list string :=
  ["lead"; "complete_registration"; "lead_grouped"].

Definition in_registration_types (v : pyval) : bool :=
  match v with
  | PStr s => bool_decide (s ∈ registration_types)
  | _ => false
  end.

Fixpoint first_registration {A} (conv : pyval → result A) (xs : list pyval)
  (found : A) : result A :=
  match xs with
  | [] => Ok found
  | action :: rest =>
      ty ← py_get action "action_type" PNone;
      if in_registration_types ty then
        v ← py_get action "value" (PInt 0);
        conv v
      else first_registration conv rest found
  end.

Definition registration_lookup {A} (conv : pyval → result A) (field : pyval)
  (found : A) : result A :=
  if truthy field then
    xs ← py_iter field;
    first_registration conv xs found
  else Ok found.

Fixpoint copy_labels (fields : list string) (item formatted_item : pydict)
  : pydict :=
  match fields with
  | [] => formatted_item
  | field :: rest =>
      copy_labels rest item
        (<[field := dget item field (PStr "unknown")]> formatted_item)
  end.

(** The body of the loop: one raw breakdown row. *)
Definition format_breakdown_item (breakdown_fields : list string)
  (item : pydict) : result pydict :=
  let formatted_item := copy_labels breakdown_fields item ∅ in
  spend ← py_float (dget item "spend" (PInt 0));
  cpm ← py_float (dget item "cpm" (PInt 0));
  impressions ← py_int (dget item "impressions" (PInt 0));
  cpc ← py_float (dget item "cpc" (PInt 0));
  clicks ← py_int (dget item "clicks" (PInt 0));
  let formatted_item :=
    <["outbound_clicks" := PInt 0]> (<["clicks" := PInt clicks]>
      (<["cpc" := PFloat cpc]> (<["impressions" := PInt impressions]>
        (<["cpm" := PFloat cpm]> (<["spend" := PFloat spend]>
          formatted_item))))) in
  (* outbound_clicks *)
  let outbound_clicks := dget item "outbound_clicks" (PInt 0) in
  outbound_sum ←
    match outbound_clicks with
    | PList items => sum_values items 0
    | _ => if truthy outbound_clicks then py_int_float outbound_clicks else Ok 0
    end;
  let formatted_item := <["outbound_clicks" := PInt outbound_sum]> formatted_item in
  (* CTR (destination) *)
  ctr_destination ←
    ctr_destination_of (dget item "outbound_clicks_ctr" (PList []))
      impressions outbound_sum;
  let formatted_item := <["ctr_destination" := ctr_destination]> formatted_item in
  (* 3 second video views *)
  let video_thruplay := dget item "video_thruplay_watched_actions" (PList []) in
  found ← video_count video_thruplay;
  video_3_sec ←
    (if is_empty_list video_thruplay && (0 <? impressions)
     then estimate_views (NInt impressions) 0.35 else Ok found);
  let formatted_item := <["video_3_sec_views" := PInt video_3_sec]> formatted_item in
  (* 100% video watches *)
  let video_p100 := dget item "video_p100_watched_actions" (PList []) in
  found ← video_count video_p100;
  video_100 ←
    (if is_empty_list video_p100 && (0 <? impressions)
     then estimate_views (NInt impressions) 0.08 else Ok found);
  let formatted_item := <["video_p100_watched" := PInt video_100]> formatted_item in
  (* hook rate and viewthrough rate *)
  formatted_item ←
    (if 0 <? impressions then
       hook_rate ←
         (if 0 <? video_3_sec
          then rate_percent (NInt video_3_sec) (NInt impressions)
          else Ok (PInt 0));
       let formatted_item := <["hook_rate" := hook_rate]> formatted_item in
       viewthrough_rate ←
         (if 0 <? video_100
          then rate_percent (NInt video_100) (NInt impressions)
          else Ok (PInt 0));
       Ok (<["viewthrough_rate" := viewthrough_rate]> formatted_item)
     else Ok formatted_item);
  (* registrations *)
  registrations ← registration_lookup py_int (dget item "actions" (PList [])) 0;
  let formatted_item := <["registrations" := PInt registrations]> formatted_item in
  (* cost per registration *)
  cpr ←
    registration_lookup (λ v, NFloat <$> py_float v)
      (dget item "cost_per_action_type" (PList [])) (NInt 0);
  cpr ←
    (if num_eq cpr (NInt 0) && (0 <? registrations) && PrimFloat.ltb 0 spend
     then num_div (NFloat spend) (NInt registrations) else Ok cpr);
  let formatted_item := <["cpr" := of_num cpr]> formatted_item in
  (* cost per click *)
  cpc ←
    (if (0 <? clicks) && PrimFloat.ltb 0 spend
     then of_num <$> num_div (NFloat spend) (NInt clicks) else Ok (PInt 0));
  let formatted_item := <["cpc" := cpc]> formatted_item in
  (* click to reg *)
  click_to_reg ←
    (if (0 <? clicks) && (0 <? registrations)
     then rate_percent (NInt registrations) (NInt clicks) else Ok (PInt 0));
  Ok (<["click_to_reg" := click_to_reg]> formatted_item).

(** [_format_breakdown_data]: the rows in input order; the first row that
    raises aborts the call. *)
Fixpoint format_breakdown_data (raw_data : list pydict)
  (breakdown_fields : list string) : result (list pydict) :=
  match raw_data with
  | [] => Ok []
  | item :: rest =>
      formatted_item ← format_breakdown_item breakdown_fields item;
      formatted_data ← format_breakdown_data rest breakdown_fields;
      Ok (formatted_item :: formatted_data)
  end.

(** *** Dates: [datetime.strptime(s, '%Y-%m-%d')] and [datetime.now()] *)

Definition is_leap (y : Z) : bool :=
  (y mod 4 =? 0) && (negb (y mod 100 =? 0) || (y mod 400 =? 0)).

Definition days_in_month (y m : Z) : Z :=
  match m with
  | 1 | 3 | 5 | 7 | 8 | 10 | 12 => 31
  | 4 | 6 | 9 | 11 => 30
  | 2 => if is_leap y then 29 else 28
  | _ => 0
  end.

Definition days_before_year (y : Z) : Z :=
  let p := y - 1 in p * 365 + p / 4 - p / 100 + p / 400.

Definition days_before_month (y m : Z) : Z :=
  foldr (λ k acc, days_in_month y k + acc) 0
    (Z.of_nat <$> seq 1 (Z.to_nat (m - 1))).

(** The proleptic Gregorian ordinal of a date ([date.toordinal]);
    [ValueError] outside [1 <= year <= 9999] or on a day that the month
    does not have. *)
Definition ymd_to_ordinal (y m d : Z) : result Z :=
  if (1 <=? y) && (y <=? 9999) && (1 <=? m) && (m <=? 12) && (1 <=? d)
     && (d <=? days_in_month y m)
  then Ok (days_before_year y + days_before_month y m + d)
  else Raise ValueError.

(** One or two characters read as a month or a day, in the order of the
    alternatives of [_strptime]'s regular expressions
    ([1[0-2]|0[1-9]|[1-9]] and [3[01]|[12]\d|0[1-9]|[1-9]| [1-9]]). *)
Definition read_two_digits (allow_space : bool) (hi : Z) (cs : list ascii)
  : option (Z * list ascii) :=
  let two :=
    match cs with
    | a :: b :: rest =>
        if is_digit a && is_digit b then
          let v := digit_val a * 10 + digit_val b in
          if (1 <=? v) && (v <=? hi) then Some (v, rest) else None
        else if allow_space && Ascii.eqb a " " && is_digit b
                && (1 <=? digit_val b)
        then Some (digit_val b, rest)
        else None
    | _ => None
    end in
  match two with
  | Some r => Some r
  | None =>
      match cs with
      | a :: rest =>
          if is_digit a && (1 <=? digit_val a) then Some (digit_val a, rest)
          else None
      | [] => None
      end
  end.

Definition expect_dash (cs : list ascii) : option (list ascii) :=
  match cs with
  | c :: rest => if Ascii.eqb c "-" then Some rest else None
  | [] => None
  end.

Definition strptime_ymd (s : string) : result Z :=
  match list_ascii_of_string s with
  | y1 :: y2 :: y3 :: y4 :: rest =>
      if is_digit y1 && is_digit y2 && is_digit y3 && is_digit y4 then
        let y := ((digit_val y1 * 10 + digit_val y2) * 10 + digit_val y3) * 10
                 + digit_val y4 in
        match expect_dash rest ≫= read_two_digits false 12 with
        | Some (m, rest) =>
            match expect_dash rest ≫= read_two_digits true 31 with
            | Some (d, []) => ymd_to_ordinal y m d
            | _ => Raise ValueError
            end
        | None => Raise ValueError
        end
      else Raise ValueError
  | _ => Raise ValueError
  end.

(** [s.split('T')[0]]: the text before the first [T]. *)
Fixpoint before_T (cs : list ascii) : list ascii :=
  match cs with
  | [] => []
  | c :: rest => if Ascii.eqb c "T" then [] else c :: before_T rest
  end.

Definition contains_T (s : string) : bool :=
  existsb (λ c, Ascii.eqb c "T") (list_ascii_of_string s).

(** [datetime.now()]: the ordinal of the day and the microseconds elapsed
    since midnight. *)
Record datetime : Type := { day : Z; micros : Z }.

(** [dt - timedelta(days=n)]; [OverflowError] outside the years 1..9999 or
    for a timedelta of more than 999999999 days. *)
Definition minus_days (dt : datetime) (n : Z) : result datetime :=
  if (Z.abs n <=? 999999999) && (1 <=? day dt - n) && (day dt - n <=? 3652059)
  then Ok {| day := day dt - n; micros := micros dt |}
  else Raise OverflowError.

Definition datetime_le (a b : datetime) : bool :=
  (day a <? day b) || ((day a =? day b) && (micros a <=? micros b)).

(** *** [find_eligible_ads] (lines 2271-2467) *)

(** [if ids:] on an [Optional[List[str]]]. *)
Definition filter_active (ids : option (list string)) : bool :=
  match ids with
  | Some (_ :: _) => true
  | _ => false
  end.

(** [x in ids], for a list of strings. *)
Definition in_ids (x : pyval) (ids : option (list string)) : bool :=
  match x, ids with
  | PStr s, Some l => bool_decide (s ∈ l)
  | _, _ => false
  end.

(** The filter logic of lines 2367-2386. *)
Definition include_ad (adset_id campaign_id : pyval)
  (specific_adset_ids specific_campaign_ids : option (list string)) : bool :=
  let include_ad := true in
  let include_ad :=
    if filter_active specific_adset_ids then
      let in_specific_adset := in_ids adset_id specific_adset_ids in
      include_ad && (in_specific_adset || false)
    else include_ad in
  if filter_active specific_campaign_ids then
    let in_specific_campaign := in_ids campaign_id specific_campaign_ids in
    if filter_active specific_adset_ids
    then include_ad || in_specific_campaign
    else include_ad && in_specific_campaign
  else include_ad.

(** The parse of [created_time] (lines 2345-2354): [None] when the ad is
    skipped because the field is missing or empty. *)
Definition created_date (ad : pyval) : result (option datetime) :=
  created_time_str ← py_get ad "created_time" (PStr "");
  if negb (truthy created_time_str) then Ok None
  else
    match created_time_str with
    | PStr s =>
        d ← (if contains_T s
             then strptime_ymd (string_of_list_ascii (before_T (list_ascii_of_string s)))
             else strptime_ymd s);
        Ok (Some {| day := d; micros := 0 |})
    | PList _ => Raise AttributeError
    | PDict _ => Raise AttributeError
    | _ => Raise TypeError
    end.

(** Stage 1: the ads created on or before the cutoff that pass the scoping
    filters, in input order. *)
Fixpoint eligible_by_date (all_ads : list pyval) (days_ago : datetime)
  (specific_adset_ids specific_campaign_ids : option (list string))
  : result (list pyval) :=
  match all_ads with
  | [] => Ok []
  | ad :: rest =>
      _ ← py_get ad "id" PNone;
      created ← created_date ad;
      keep ←
        match created with
        | None => Ok false
        | Some created_date =>
            if datetime_le created_date days_ago then
              adset ← py_get ad "adset" (PDict ∅);
              adset_id ← py_get adset "id" PNone;
              campaign ← py_get ad "campaign" (PDict ∅);
              campaign_id ← py_get campaign "id" PNone;
              Ok (include_ad adset_id campaign_id
                    specific_adset_ids specific_campaign_ids)
            else Ok false
        end;
      others ← eligible_by_date rest days_ago
                 specific_adset_ids specific_campaign_ids;
      Ok (if keep : bool then ad :: others else others)
  end.

(** Modelled from the specification of the external insights endpoint: the
    request carries the filters [ad.id IN batch_ad_ids] and
    [spend GREATER_THAN min_spend], and the endpoint answers with the rows
    of the account, for the requested window, that satisfy both. *)
Definition py_eq_atom (a b : pyval) : bool :=
  match a, b with
  | PNone, PNone => true
  | PStr s, PStr t => String.eqb s t
  | PList _, _ | _, PList _ | PDict _, _ | _, PDict _ => false
  | _, _ =>
      match as_num a, as_num b with
      | Some x, Some y => num_eq x y
      | _, _ => false
      end
  end.

Definition spend_greater_than (row : pydict) (min_spend : num) : bool :=
  match py_float (dget row "spend" (PInt 0)) with
  | Ok x => num_gt (NFloat x) min_spend
  | Raise _ => false
  end.

Definition insights_endpoint (account_rows : list pydict)
  (batch_ad_ids : list pyval) (min_spend : num) : list pydict :=
  filter
    (λ row,
      Is_true (existsb (py_eq_atom (dget row "ad_id" PNone)) batch_ad_ids
               && spend_greater_than row min_spend))
    account_rows.

(** [a or b], with [b] evaluated only when [a] is falsy. *)
Definition py_or (a : pyval) (b : result pyval) : result pyval :=
  if truthy a then Ok a else b.

(** [next((ad for ad in batch if ad.get('id') == ad_id), None)]. *)
Fixpoint find_ad (batch : list pyval) (ad_id : pyval) : result pyval :=
  match batch with
  | [] => Ok PNone
  | ad :: rest =>
      i ← py_get ad "id" PNone;
      if py_eq_atom i ad_id then Ok ad else find_ad rest ad_id
  end.

Definition nested_get (ad : pyval) (outer inner : string) : result pyval :=
  o ← py_get ad outer (PDict ∅);
  py_get o inner PNone.

(** One insight row of a batch (lines 2432-2454). *)
Definition ad_data_of_insight (batch : list pyval) (insight : pydict)
  : result (option pydict) :=
  let ad_id := dget insight "ad_id" PNone in
  matching_ad ← find_ad batch ad_id;
  if truthy matching_ad then
    ad_name ← py_or (dget insight "ad_name" PNone) (py_get matching_ad "name" (PStr ""));
    campaign_id ← py_or (dget insight "campaign_id" PNone) (nested_get matching_ad "campaign" "id");
    campaign_name ← py_or (dget insight "campaign_name" PNone) (nested_get matching_ad "campaign" "name");
    adset_id ← py_or (dget insight "adset_id" PNone) (nested_get matching_ad "adset" "id");
    adset_name ← py_or (dget insight "adset_name" PNone) (nested_get matching_ad "adset" "name");
    created_time ← py_get matching_ad "created_time" PNone;
    status ← py_get matching_ad "status" PNone;
    spend ← py_float (dget insight "spend" (PInt 0));
    Ok (Some (list_to_map
      [("ad_id", ad_id); ("ad_name", ad_name); ("campaign_id", campaign_id);
       ("campaign_name", campaign_name); ("adset_id", adset_id);
       ("adset_name", adset_name); ("created_time", created_time);
       ("status", status); ("spend", PFloat spend)]))
  else Ok None.

Fixpoint ads_of_insights (batch : list pyval) (batch_insights : list pydict)
  : result (list pydict) :=
  match batch_insights with
  | [] => Ok []
  | insight :: rest =>
      ad_data ← ad_data_of_insight batch insight;
      others ← ads_of_insights batch rest;
      Ok (match ad_data with Some d => d :: others | None => others end)
  end.

(** [[l[i:i+50] for i in range(0, len(l), 50)]]. *)
Fixpoint batches_of (fuel : nat) (size : nat) (l : list pyval)
  : list (list pyval) :=
  match fuel, l with
  | _, [] => []
  | O, _ => []
  | S fuel, _ => take size l :: batches_of fuel size (drop size l)
  end.

Definition ad_batches (l : list pyval) : list (list pyval) :=
  batches_of (length l) 50 l.

Fixpoint ids_of (batch : list pyval) : result (list pyval) :=
  match batch with
  | [] => Ok []
  | ad :: rest =>
      i ← py_get ad "id" PNone; others ← ids_of rest; Ok (i :: others)
  end.

Fixpoint stage2 (account_rows : list pydict) (min_spend : num)
  (batches : list (list pyval)) : result (list pydict) :=
  match batches with
  | [] => Ok []
  | batch :: rest =>
      batch_ad_ids ← ids_of batch;
      let batch_insights := insights_endpoint account_rows batch_ad_ids min_spend in
      found ← ads_of_insights batch batch_insights;
      others ← stage2 account_rows min_spend rest;
      Ok (app found others)
  end.

(** The whole call.  [account_rows since until] stands for what the account
    spent per ad in the window; the window is the [days] days that end
    yesterday.  Any exception after the dates are computed is logged and
    turned into the empty list. *)
Definition find_eligible_ads (today : datetime) (all_ads : result (list pyval))
  (account_rows : Z → Z → list pydict)
  (days : Z) (min_spend : num)
  (specific_adset_ids specific_campaign_ids : option (list string))
  : result (list pydict) :=
  days_ago ← minus_days today days;
  end_date ← minus_days {| day := day today; micros := 0 |} 1;
  start_date ← minus_days end_date (days - 1);
  let guarded : result (list pydict) :=
    all_ads ← all_ads;
    if negb (truthy (PList all_ads)) then Ok []
    else
      by_date ← eligible_by_date all_ads days_ago
                  specific_adset_ids specific_campaign_ids;
      if negb (truthy (PList by_date)) then Ok []
      else
        eligible_ads ←
          stage2 (account_rows (day start_date) (day end_date)) min_spend
            (ad_batches by_date);
        Ok (sorted_desc (num_key "spend") eligible_ads) in
  match guarded with
  | Ok l => Ok l
  | Raise _ => Ok []
  end.

(** *** [_make_api_request]: the rate-limit delay (lines 144-211) *)

(** What [requests.get] produced: a response, or an exception. *)
Inductive http_outcome : Type :=
| Response (status_code : Z) (text : string) (json : result pyval)
| RequestException.

Definition rate_limited (status_code : Z) (text : string) : bool :=
  (status_code =? 429) || str_in "User request limit reached" text.

(** [max(2, w / 1.5)]: the second argument is returned only when it is
    greater than the first. *)
Definition relaxed_wait (rate_limit_wait : num) : result num :=
  w ← num_div rate_limit_wait (NFloat 1.5);
  Ok (if num_gt w (NInt 2) then w else NInt 2).

(** The initial value set by [__init__]. *)
Definition initial_wait : num := NInt 2.

(** The call is followed along the outcomes of its successive
    [requests.get]; it returns the delay it leaves in [self.rate_limit_wait]
    together with what it returned or raised, or [None] for the outcome
    when the listed outcomes end while it is still retrying. *)
Fixpoint make_api_request (url : string) (outcomes : list http_outcome)
  (rate_limit_wait : num) : num * option (result pyval) :=
  match outcomes with
  | [] => (rate_limit_wait, None)
  | RequestException :: _ => (rate_limit_wait, Some (Raise OtherError))
  | Response status_code text json :: rest =>
      if rate_limited status_code text then
        match num_mul rate_limit_wait (NInt 2) with
        | Ok w => make_api_request url rest w
        | Raise e => (rate_limit_wait, Some (Raise e))
        end
      else if status_code =? 200 then
        match relaxed_wait rate_limit_wait with
        | Ok w => (w, Some json)
        | Raise e => (rate_limit_wait, Some (Raise e))
        end
      else if str_in "Application does not have permission" text
              && (str_in "video" (lower_string url)
                  || str_in "creative" (lower_string url))
      then
        (rate_limit_wait,
         Some (Ok (PDict {["data" := PList [PDict
           {["video_thruplay_watched_actions" := PList [];
             "video_p100_watched_actions" := PList []]}]]})))
      else (rate_limit_wait, Some (Raise OtherError))
  end.

(** A client that serves several calls one after the other: the delay left
    by a call is the one the next call starts with. *)
Fixpoint serve (calls : list (string * list http_outcome))
  (rate_limit_wait : num) : num :=
  match calls with
  | [] => rate_limit_wait
  | (url, outcomes) :: rest =>
      serve rest (make_api_request url outcomes rate_limit_wait).1
  end.

(** *** [_handle_pagination] (lines 212-278) *)

(** Line 231: the request is the initial discovery of the ads. *)
Definition is_ad_discovery (url : string) : bool :=
  str_in "ads" url && str_in "/ads" url && negb (str_in "insights" url)
  && negb (str_in "demographic" url).

(** Line 249, the test that chooses the log line of a follow-up page:
    ["insights" in url and "breakdowns" in params.get('breakdowns', "")].
    The second operand is evaluated only when the first holds, and raises
    when the parameter is a value that has no [in]. *)
Definition breakdown_log_test (url : string) (params : pydict) : result bool :=
  if str_in "insights" url
  then py_contains (dget params "breakdowns" (PStr "")) "breakdowns"
  else Ok false.

(** What one page contributes (lines 237-242 and 262-268): the items that
    [all_data.extend(data)] appends and the link to the next page. *)
Definition page_content (response : pyval) : result (list pyval * pyval) :=
  data ← py_get response "data" (PList []);
  items ← py_iter data;
  paging ← py_get response "paging" (PDict ∅);
  next_page ← py_get paging "next" PNone;
  Ok (items, next_page).

(** The [while next_page:] loop (lines 245-268), followed along the outcomes
    of its successive [requests.get(next_page)]: [None] when the listed
    outcomes end while there is still a next page.  A page whose status is
    not 200 ends the loop. *)
Fixpoint follow_pages (url : string) (params : pydict)
  (pages : list http_outcome) (next_page : pyval) (all_data : list pyval)
  : option (result (list pyval)) :=
  if negb (truthy next_page) then Some (Ok all_data)
  else
    match breakdown_log_test url params with
    | Raise e => Some (Raise e)
    | Ok _ =>
        match pages with
        | [] => None
        | RequestException :: _ => Some (Raise OtherError)
        | Response status_code _ json :: rest =>
            if negb (status_code =? 200) then Some (Ok all_data)
            else
              match json ≫= page_content with
              | Raise e => Some (Raise e)
              | Ok (items, next_page) =>
                  follow_pages url params rest next_page (app all_data items)
              end
        end
    end.

(** What a call leaves and returns: the delay in [self.rate_limit_wait],
    the value assigned to [self.total_ads_retrieved] (assigned only on the
    discovery of the ads, and only when the call returns), and the list
    returned or the exception raised. *)
Record paginated : Type := {
  wait_after : num;
  total_ads_retrieved : option nat;
  returned : option (result (list pyval))
}.

(** The first page goes through [_make_api_request], with [first] the
    outcomes of its requests; the follow-up pages are fetched directly. *)
Definition handle_pagination (url : string) (params : pydict)
  (first pages : list http_outcome) (rate_limit_wait : num) : paginated :=
  let '(w, r) := make_api_request url first rate_limit_wait in
  let returned :=
    match r with
    | None => None
    | Some (Raise e) => Some (Raise e)
    | Some (Ok response) =>
        match page_content response with
        | Raise e => Some (Raise e)
        | Ok (items, next_page) => follow_pages url params pages next_page items
        end
    end in
  {| wait_after := w;
     total_ads_retrieved :=
       match returned with
       | Some (Ok all_data) =>
           if is_ad_discovery url then Some (length all_data) else None
       | _ => None
       end;
     returned := returned |}.

End MetaApiClient.

(** ** The data validator ([src/data_validator.py]) *)

Module DataValidator.

(** [_check_spend_threshold] (lines 139-153). *)
Definition check_spend_threshold (spend_threshold : num) (ad_data : pydict)
  : result bool :=
  match ad_data !! "metrics" with
  | None => Ok false
  | Some metrics =>
      spend ← py_get metrics "spend" (PInt 0);
      py_ge spend spend_threshold
  end.

End DataValidator.

(** ** The performance analyzer ([src/performance_analyzer.py]) *)

Module PerformanceAnalyzer.

(** The Meta client as the analyzer sees it: its region and the outcome of
    [get_account_insights]. *)
Record meta_client : Type := {
  region : string;
  account_insights : result pydict
}.

(** The analyzer's attributes. *)
Record analyzer : Type := {
  client : option meta_client;
  benchmarks : pyval
}.

Definition no_benchmarks (market : string) : pydict :=
  {["market" := PStr market; "benchmarks" := PDict ∅]}.

(** [calculate_benchmarks] (lines 40-100) for a client that is there.  The
    log line formats every benchmark with [:.2f], which raises on a value
    that is not a number; every exception ends in the minimal structure. *)
Definition calculate_benchmarks (c : meta_client) : pydict :=
  match account_insights c with
  | Raise _ => no_benchmarks "Error"
  | Ok insights =>
      if negb (truthy (PDict insights)) then no_benchmarks "Unknown"
      else
        let values : pydict :=
          {["ctr" := dget insights "ctr" (PInt 0);
            "cpm" := dget insights "cpm" (PInt 0);
            "cpa" := dget insights "cost_per_conversion" (PInt 0);
            "roas" := dget insights "roas" (PInt 0);
            "conversion_rate" := dget insights "conversion_rate" (PInt 0);
            "hook_rate" := dget insights "hook_rate" (PInt 0);
            "viewthrough_rate" := dget insights "viewthrough_rate" (PInt 0)]} in
        if bool_decide (map_Forall (λ _ v, Is_true (is_int_or_float v)) values)
        then {["market" := PStr (region c); "benchmarks" := PDict values;
               "segments" := PDict ∅]}
        else no_benchmarks "Error"
  end.

(** Lines 114-116, shared by [compare_to_benchmarks] and
    [analyze_performance]: benchmarks are calculated when there are none yet
    and there is a client. *)
Definition ensure_benchmarks (a : analyzer) : analyzer :=
  match client a with
  | Some c =>
      if negb (truthy (benchmarks a))
      then {| client := client a; benchmarks := PDict (calculate_benchmarks c) |}
      else a
  | None => a
  end.

(** [self.benchmarks.get(k, {}) if self.benchmarks else {}]. *)
Definition benchmarks_entry (a : analyzer) (k : string) : result pyval :=
  if truthy (benchmarks a) then py_get (benchmarks a) k (PDict ∅)
  else Ok (PDict ∅).

(** [((num / den) - 1) * 100]. *)
Definition ratio_delta (num den : pyval) : result pyval :=
  r ← py_div num den;
  d ← py_sub r (PInt 1);
  py_mul d (PInt 100).

(** One comparison of [compare_to_benchmarks].  Higher is better:
<<
    if k in metrics and k in benchmark_metrics and benchmark_metrics[k] > 0:
        delta = ((metrics[k] / benchmark_metrics[k]) - 1) * 100
    else: delta = 0
>>
    lower is better: the condition also asks for [metrics[k] > 0] and the
    ratio is inverted. *)
Definition compare_metric (lower_is_better : bool) (k : string)
  (metrics benchmark_metrics : pyval) : result pyval :=
  in_metrics ← py_contains metrics k;
  if in_metrics : bool then
    in_benchmarks ← py_contains benchmark_metrics k;
    if in_benchmarks : bool then
      benchmark ← py_subscript benchmark_metrics k;
      pos ← py_gt benchmark (NInt 0);
      if pos : bool then
        actual ← py_subscript metrics k;
        if lower_is_better then
          pos ← py_gt actual (NInt 0);
          if pos : bool then ratio_delta benchmark actual else Ok (PInt 0)
        else ratio_delta actual benchmark
      else Ok (PInt 0)
    else Ok (PInt 0)
  else Ok (PInt 0).

(** [sum(comparison.get(metric, 0) * weight for metric, weight in
    weights.items())], as the left-to-right sum that starts at the integer
    0. *)
Fixpoint weighted_sum (comparison : pydict) (weights : list (string * float))
  (acc : pyval) : result pyval :=
  match weights with
  | [] => Ok acc
  | (metric, weight) :: rest =>
      term ← py_mul (dget comparison metric (PInt 0)) (PFloat weight);
      acc ← py_add acc term;
      weighted_sum comparison rest acc
  end.

Definition weights : list (string * float) :=
  [("ctr_vs_benchmark", 0.10%float); ("cpa_vs_benchmark", 0.30%float);
   ("roas_vs_benchmark", 0.30%float); ("cpm_vs_benchmark", 0.10%float);
   ("hook_rate_vs_benchmark", 0.10%float);
   ("viewthrough_rate_vs_benchmark", 0.10%float)].

Definition rating_of (weighted_score : num) : string :=
  if num_ge weighted_score (NInt 20) then "Above Average"
  else if num_le weighted_score (NInt (-20)) then "Below Average"
  else "Average".

(** [metric in metrics and metrics[metric] > 0]. *)
Definition metric_positive (metrics : pyval) (metric : string) : result bool :=
  present ← py_contains metrics metric;
  if present : bool then v ← py_subscript metrics metric; py_gt v (NInt 0)
  else Ok false.

(** [sum(1 for metric in [...] if metric in metrics and metrics[metric] > 0)]. *)
Fixpoint metrics_availability (metrics : pyval) (names : list string)
  : result Z :=
  match names with
  | [] => Ok 0
  | metric :: rest =>
      counted ← metric_positive metrics metric;
      n ← metrics_availability metrics rest;
      Ok (Z.b2z counted + n)
  end.

Definition tracked_metrics : list string :=
  ["ctr"; "cpa"; "roas"; "cpm"; "hook_rate"; "viewthrough_rate"].

(** [compare_to_benchmarks] (lines 102-199): the comparison it returns and
    the analyzer it leaves. *)
Definition compare_to_benchmarks (a : analyzer) (ad_data : pydict)
  : result (pydict * analyzer) :=
  let a := ensure_benchmarks a in
  let metrics := dget ad_data "metrics" (PDict ∅) in
  benchmark_metrics ← benchmarks_entry a "benchmarks";
  ctr ← compare_metric false "ctr" metrics benchmark_metrics;
  cpa ← compare_metric true "cpa" metrics benchmark_metrics;
  roas ← compare_metric false "roas" metrics benchmark_metrics;
  cpm ← compare_metric true "cpm" metrics benchmark_metrics;
  hook_rate ← compare_metric false "hook_rate" metrics benchmark_metrics;
  viewthrough_rate ←
    compare_metric false "viewthrough_rate" metrics benchmark_metrics;
  let comparison : pydict :=
    <["viewthrough_rate_vs_benchmark" := viewthrough_rate]>
      (<["hook_rate_vs_benchmark" := hook_rate]>
        (<["cpm_vs_benchmark" := cpm]> (<["roas_vs_benchmark" := roas]>
          (<["cpa_vs_benchmark" := cpa]> (<["ctr_vs_benchmark" := ctr]> ∅))))) in
  weighted_score ← weighted_sum comparison weights (PInt 0);
  score ← the_num weighted_score;
  let rating := rating_of score in
  availability ← metrics_availability metrics tracked_metrics;
  share ← num_div (NInt availability) (NInt 6);
  stability_score ← num_mul share (NInt 100);
  Ok (list_to_map
        [("metrics_vs_benchmark", PDict comparison);
         ("overall_performance_score", weighted_score);
         ("performance_rating", PStr rating);
         ("stability_score", of_num stability_score)],
      a).

(** *** [analyze_segments] (lines 201-333) *)

(** [str.replace(old, new)] for a one-character [old]. *)
Definition replace_char (old : ascii) (new : string) (s : string) : string :=
  string_of_list_ascii
    (concat ((λ c, if Ascii.eqb c old then list_ascii_of_string new else [c])
             <$> list_ascii_of_string s)).

(** [name.lower().replace('-', ' ').replace('_', ' ').replace('+', ' plus')],
    on ASCII text. *)
Definition normalize_name (s : string) : string :=
  replace_char "+" " plus" (replace_char "_" " " (replace_char "-" " "
    (lower_string s))).

Section Segments.

(** [str(v)] as an f-string prints it.  Strings print as themselves, [None]
    and booleans by name, integers in decimal; the text of a float or of a
    container is left to [repr_other]. *)
Variable repr_other : pyval → string.

Definition decimal_of_Z (z : Z) : string :=
  match z with
  | Z0 => "0"
  | Zpos p => NilEmpty.string_of_uint (Pos.to_uint p)
  | Zneg p => "-" ++ NilEmpty.string_of_uint (Pos.to_uint p)
  end%string.

Definition py_str (v : pyval) : string :=
  match v with
  | PStr s => s
  | PNone => "None"
  | PBool true => "True"
  | PBool false => "False"
  | PInt z => decimal_of_Z z
  | _ => repr_other v
  end.

(** The analysis of one segment (lines 226-292): name, metrics, comparison
    and score. *)
Definition analyze_segment (a : analyzer) (segment : pyval) : result pydict :=
  age ← py_get segment "age" (PStr "unknown");
  gender ← py_get segment "gender" (PStr "unknown");
  let segment_name := normalize_name (py_str age ++ " " ++ py_str gender)%string in
  segments ← benchmarks_entry a "segments";
  segment_benchmarks ←
    (if truthy (benchmarks a) then py_get segments segment_name (PDict ∅)
     else Ok (PDict ∅));
  age' ← py_get segment "age" (PStr "Unknown");
  gender' ← py_get segment "gender" (PStr "Unknown");
  let display_name := (py_str age' ++ " " ++ py_str gender')%string in
  spend ← py_get segment "spend" (PInt 0);
  impressions ← py_get segment "impressions" (PInt 0);
  clicks ← py_get segment "clicks" (PInt 0);
  conversions ← py_get segment "conversions" (PInt 0);
  let metrics : pydict :=
    {["spend" := spend; "impressions" := impressions; "clicks" := clicks;
      "conversions" := conversions]} in
  (* derived metrics *)
  seen ← py_gt impressions (NInt 0);
  ctr ← (if seen : bool then py_div clicks impressions else Ok (PInt 0));
  cpm ← (if seen : bool
         then r ← py_div spend impressions; py_mul r (PInt 1000)
         else Ok (PInt 0));
  let metrics := <["cpm" := cpm]> (<["ctr" := ctr]> metrics) in
  converted ← py_gt conversions (NInt 0);
  cpa ← (if converted : bool then py_div spend conversions else Ok (PInt 0));
  conversion_rate ←
    (if converted : bool then
       clicked ← py_gt clicks (NInt 0);
       if clicked : bool
       then r ← py_div conversions clicks; py_mul r (PInt 100)
       else Ok (PInt 0)
     else Ok (PInt 0));
  let metrics := <["conversion_rate" := conversion_rate]> (<["cpa" := cpa]> metrics) in
  let analysis : pydict :=
    {["segment_name" := PStr segment_name; "display_name" := PStr display_name;
      "metrics" := PDict metrics]} in
  (* comparison with the benchmarks of the segment *)
  if truthy segment_benchmarks then
    has_ctr ← py_contains segment_benchmarks "ctr";
    ctr_delta ←
      (if has_ctr : bool then
         b ← py_subscript segment_benchmarks "ctr";
         pos ← py_gt b (NInt 0);
         if pos : bool then ratio_delta ctr b else Ok (PInt 0)
       else Ok (PInt 0));
    has_cpa ← py_contains segment_benchmarks "cpa";
    cpa_delta ←
      (if has_cpa : bool then
         b ← py_subscript segment_benchmarks "cpa";
         pos ← py_gt b (NInt 0);
         if pos : bool then
           pos ← py_gt cpa (NInt 0);
           if pos : bool then ratio_delta b cpa else Ok (PInt 0)
         else Ok (PInt 0)
       else Ok (PInt 0));
    let comparison : pydict :=
      {["ctr_vs_benchmark" := ctr_delta; "cpa_vs_benchmark" := cpa_delta]} in
    segment_score ←
      weighted_sum comparison
        [("ctr_vs_benchmark", 0.3%float); ("cpa_vs_benchmark", 0.7%float)]
        (PInt 0);
    Ok (<["segment_score" := segment_score]>
          (<["comparison" := PDict comparison]> analysis))
  else Ok (<["segment_score" := PInt 0]> analysis).

Fixpoint analyze_each (a : analyzer) (segments : list pyval)
  : result (list pydict) :=
  match segments with
  | [] => Ok []
  | segment :: rest =>
      analysis ← analyze_segment a segment;
      others ← analyze_each a rest;
      Ok (analysis :: others)
  end.

(** The list objects of lines 296-302.  [sorted] and slicing make a new
    list; a conditional expression whose branch is [sorted_segments] makes
    none: it yields the very list, and [reverse()] changes the list it is
    called on.  The store holds the lists; a variable holds the index of
    its list. *)
Definition list_store : Type := list (list pydict).

Definition new_list (l : list pydict) (st : list_store) : nat * list_store :=
  (length st, app st [l]).

Definition list_at (st : list_store) (r : nat) : list pydict :=
  default [] (st !! r).

Definition reverse_in_place (r : nat) (st : list_store) : list_store :=
  <[r := reverse (list_at st r)]> st.

(** [l[-3:]]. *)
Definition last_three (l : list pydict) : list pydict :=
  drop (length l - 3) l.

(** Lines 296-302: the variables [best_segments] and [worst_segments] and
    the store they point into. *)
Definition rank_segments (segment_analysis : list pydict)
  : nat * nat * list_store :=
  let '(sorted_segments, st) :=
    new_list (sorted_desc (num_key "segment_score") segment_analysis) [] in
  let n := length (list_at st sorted_segments) in
  let '(best_segments, st) :=
    if bool_decide (3 ≤ n)%nat
    then new_list (take 3 (list_at st sorted_segments)) st
    else (sorted_segments, st) in
  let '(worst_segments, st) :=
    if bool_decide (3 ≤ n)%nat
    then new_list (last_three (list_at st sorted_segments)) st
    else (sorted_segments, st) in
  let st := reverse_in_place worst_segments st in
  (best_segments, worst_segments, st).

(** [sum(segment.get('metrics', {}).get(k, 0) for segment in ...)]. *)
Fixpoint total_of (k : string) (segment_analysis : list pydict) (acc : pyval)
  : result pyval :=
  match segment_analysis with
  | [] => Ok acc
  | segment :: rest =>
      v ← py_get (dget segment "metrics" (PDict ∅)) k (PInt 0);
      acc ← py_add acc v;
      total_of k rest acc
  end.

Definition contribution (k : string) (total : pyval) (segment : pydict)
  : result pyval :=
  pos ← py_gt total (NInt 0);
  if pos : bool then
    v ← py_get (dget segment "metrics" (PDict ∅)) k (PInt 0);
    r ← py_div v total;
    py_mul r (PInt 100)
  else Ok (PInt 0).

Fixpoint with_contributions (total_spend total_conversions : pyval)
  (segment_analysis : list pydict) : result (list pydict) :=
  match segment_analysis with
  | [] => Ok []
  | segment :: rest =>
      s ← contribution "spend" total_spend segment;
      c ← contribution "conversions" total_conversions segment;
      others ← with_contributions total_spend total_conversions rest;
      Ok (<["conversion_contribution" := c]>
            (<["spend_contribution" := s]> segment) :: others)
  end.

(** [[s['segment_name'] for s in l]]; the name is put in every analysis and
    never changed. *)
Definition names_of (l : list pydict) : list pyval :=
  (λ s, dget s "segment_name" PNone) <$> l.

Definition segment_performance (segment_analysis : list pydict) : pydict :=
  foldl (λ acc segment,
           match dget segment "segment_name" PNone with
           | PStr name => <[name := PDict segment]> acc
           | _ => acc
           end) ∅ segment_analysis.

Definition no_segments : pydict :=
  {["best_segments" := PList []; "worst_segments" := PList [];
    "segment_performance" := PDict ∅]}.

Definition analyze_segments (a : analyzer) (ad_data : pydict) : result pydict :=
  match ad_data !! "breakdowns" with
  | None => Ok no_segments
  | Some breakdowns =>
      has ← py_contains breakdowns "age_gender";
      if negb has then Ok no_segments
      else
        age_gender_data ← py_subscript breakdowns "age_gender";
        segments ← py_iter age_gender_data;
        segment_analysis ← analyze_each a segments;
        let '(best_segments, worst_segments, st) :=
          rank_segments segment_analysis in
        total_spend ← total_of "spend" segment_analysis (PInt 0);
        total_conversions ← total_of "conversions" segment_analysis (PInt 0);
        final ← with_contributions total_spend total_conversions segment_analysis;
        Ok {["best_segments" := PList (names_of (list_at st best_segments));
             "worst_segments" := PList (names_of (list_at st worst_segments));
             "segment_performance" := PDict (segment_performance final)]}
  end.

End Segments.

(** *** [analyze_performance] (lines 335-372) *)

Section Performance.

Variable repr_other : pyval → string.

(** [l[0]]. *)
Definition first_item (v : pyval) : result pyval :=
  match v with
  | PList (x :: _) => Ok x
  | PList [] => Raise IndexError
  | PStr s =>
      match s with
      | String c _ => Ok (PStr (String c EmptyString))
      | EmptyString => Raise IndexError
      end
  | PDict _ => Raise KeyError
  | _ => Raise TypeError
  end.

(** [segment_analysis.get('best_segments', ['Unknown'])[0]
     if segment_analysis.get('best_segments') else 'Unknown']. *)
Definition best_segment_of (segment_analysis : pydict) : result pyval :=
  if truthy (dget segment_analysis "best_segments" PNone)
  then first_item (dget segment_analysis "best_segments" (PList [PStr "Unknown"]))
  else Ok (PStr "Unknown").

(** The analyzer that the call leaves and the analysis it returns.
    [analysis_date] is what [datetime.now().strftime('%Y-%m-%d')] prints. *)
Definition analyze_performance (a : analyzer) (analysis_date : string)
  (ad_data : pydict) : analyzer * result pydict :=
  let a := ensure_benchmarks a in
  match compare_to_benchmarks a ad_data with
  | Raise e => (ensure_benchmarks a, Raise e)
  | Ok (benchmark_comparison, a) =>
      (a,
       segment_analysis ← analyze_segments repr_other a ad_data;
       let analysis : pydict :=
         {["ad_id" := dget ad_data "ad_id" (PStr "unknown");
           "ad_name" := dget ad_data "ad_name" (PStr "Unknown Ad");
           "campaign_name" := dget ad_data "campaign_name" (PStr "Unknown Campaign");
           "benchmark_comparison" := PDict benchmark_comparison;
           "segment_analysis" := PDict segment_analysis;
           "analysis_date" := PStr analysis_date]} in
       let analysis :=
         <["performance_rating" :=
             dget benchmark_comparison "performance_rating" (PStr "Unknown")]> analysis in
       let analysis :=
         <["performance_score" :=
             dget benchmark_comparison "overall_performance_score" (PInt 0)]> analysis in
       best_segment ← best_segment_of segment_analysis;
       Ok (<["best_segment" := best_segment]> analysis))
  end.

End Performance.

End PerformanceAnalyzer.

(** ** The other checks of the validator ([src/data_validator.py]) *)

Module DataValidatorChecks.
Import MetaApiClient DataValidator PerformanceAnalyzer.

(** *** [_check_required_fields] (lines 105-137) *)

Definition top_level_fields : list string :=
  ["ad_id"; "ad_name"; "campaign_name"; "created_time"; "metrics"].

Definition metric_fields : list string :=
  ["spend"; "impressions"; "clicks"; "conversions"; "ctr"; "cpm"; "cpa"].

(** [field not in ad_data or not ad_data[field]]. *)
Definition field_missing (ad_data : pydict) (field : string) : bool :=
  match ad_data !! field with
  | None => true
  | Some v => negb (truthy v)
  end.

Fixpoint missing_top_level (ad_data : pydict) (fields : list string)
  : list string :=
  match fields with
  | [] => []
  | field :: rest =>
      if field_missing ad_data field
      then ("Missing required field: " ++ field)%string
             :: missing_top_level ad_data rest
      else missing_top_level ad_data rest
  end.

Fixpoint missing_metrics (metrics : pyval) (fields : list string)
  : result (list string) :=
  match fields with
  | [] => Ok []
  | field :: rest =>
      present ← py_contains metrics field;
      others ← missing_metrics metrics rest;
      Ok (if present : bool then others
          else ("Missing required metric: " ++ field)%string :: others)
  end.

Definition missing_breakdowns (ad_data : pydict) : result (list string) :=
  match ad_data !! "breakdowns" with
  | Some breakdowns =>
      present ← py_contains breakdowns "age_gender";
      if present : bool then
        age_gender ← py_subscript breakdowns "age_gender";
        Ok (if truthy age_gender then []
            else ["Missing required breakdown: age_gender"])
      else Ok ["Missing required breakdown: age_gender"]
  | None => Ok ["Missing required section: breakdowns"]
  end.

Definition check_required_fields (ad_data : pydict) : result (list string) :=
  let missing_fields := missing_top_level ad_data top_level_fields in
  metrics ←
    match ad_data !! "metrics" with
    | Some metrics => missing_metrics metrics metric_fields
    | None => Ok []
    end;
  breakdowns ← missing_breakdowns ad_data;
  Ok (app missing_fields (app metrics breakdowns)).

(** *** [_check_timeframe] (lines 155-185) *)

(** [today] is the reading of [datetime.now()].  The creation date is a
    midnight, so that [(today - created_time).days] is the difference of the
    two days.  Every exception of the parse ends in [False]: a value that is
    not a string fails at ['T' in ...], at [.split] or in [strptime]. *)
Definition check_timeframe (today : datetime) (days_threshold : Z)
  (ad_data : pydict) : bool :=
  match ad_data !! "created_time" with
  | None => false
  | Some (PStr created_time_str) =>
      let created_time :=
        if contains_T created_time_str
        then strptime_ymd
               (string_of_list_ascii
                  (before_T (list_ascii_of_string created_time_str)))
        else strptime_ymd created_time_str in
      match created_time with
      | Ok created_time =>
          let days_since_creation := day today - created_time in
          days_threshold <=? days_since_creation
      | Raise _ => false
      end
  | Some _ => false
  end.

Section Messages.

(** The text of a float or of a container in a message, as in
    [PerformanceAnalyzer.py_str]. *)
Variable repr_other : pyval → string.

#[local] Abbreviation str := (py_str repr_other).

(** *** [_check_anomalies] (lines 187-223) *)

Definition py_lt (v : pyval) (c : num) : result bool :=
  n ← the_num v; Ok (num_lt n c).

(** The loop of lines 211-213 over a [metrics] that is a dict. *)
Fixpoint negative_values (metrics : pydict) (fields : list string)
  : result (list string) :=
  match fields with
  | [] => Ok []
  | field :: rest =>
      negative ←
        match metrics !! field with
        | Some v => py_lt v (NInt 0)
        | None => Ok false
        end;
      others ← negative_values metrics rest;
      Ok (if negative : bool
          then ("Negative value for " ++ field ++ ": "
                ++ str (dget metrics field PNone))%string :: others
          else others)
  end.

Definition check_anomalies (ad_data : pydict) : result (list string) :=
  match ad_data !! "metrics" with
  | None => Ok []
  | Some metrics =>
      ctr ← py_get metrics "ctr" (PInt 0);
      high_ctr ← py_gt ctr (NFloat 10);
      let anomalies1 :=
        if high_ctr : bool
        then [("Unusually high CTR: " ++ str ctr ++ "%")%string] else [] in
      impressions ← py_get metrics "impressions" (PInt 0);
      unseen ←
        (if py_eq_num impressions (NInt 0)
         then spend ← py_get metrics "spend" (PInt 0); py_gt spend (NInt 0)
         else Ok false);
      let anomalies2 :=
        if unseen : bool then ["Zero impressions with non-zero spend"] else [] in
      anomalies3 ←
        match metrics with
        | PDict d => negative_values d metric_fields
        | _ => Raise TypeError
        end;
      clicks ← py_get metrics "clicks" (PInt 0);
      clicked ← py_gt clicks (NInt 0);
      exceeds ←
        (if clicked : bool then
           conversions ← py_get metrics "conversions" (PInt 0);
           n ← the_num clicks;
           py_gt conversions n
         else Ok false);
      let anomalies4 :=
        if exceeds : bool then ["Conversion count exceeds click count"] else [] in
      roas ← py_get metrics "roas" (PInt 0);
      high_roas ← py_gt roas (NFloat 20);
      let anomalies5 :=
        if high_roas : bool
        then [("Unusually high ROAS: " ++ str roas)%string] else [] in
      Ok (app anomalies1 (app anomalies2 (app anomalies3
            (app anomalies4 anomalies5))))
  end.

(** *** [validate_ad_data] (lines 61-103) and [validate_ad] (lines 40-59) *)

(** The validator's attributes. *)
Variable spend_threshold : num.
Variable days_threshold : Z.

Definition validate_ad_data (today : datetime) (ad_data : pydict)
  : result (bool * list string) :=
  required_fields ← check_required_fields ad_data;
  spend_ok ← check_spend_threshold spend_threshold ad_data;
  spend_issue ←
    (if spend_ok : bool then Ok []
     else
       spend ← py_get (dget ad_data "metrics" (PDict ∅)) "spend" (PInt 0);
       Ok [("Spend below threshold: " ++ str spend ++ " < "
            ++ str (of_num spend_threshold))%string]);
  let timeframe_ok := check_timeframe today days_threshold ad_data in
  let timeframe_issue :=
    if timeframe_ok then []
    else [("Insufficient data: Less than " ++ decimal_of_Z days_threshold
           ++ " days of data")%string] in
  anomalies ← check_anomalies ad_data;
  let is_valid :=
    match required_fields with [] => true | _ => false end
    && spend_ok && timeframe_ok in
  Ok (is_valid,
      app required_fields (app spend_issue (app timeframe_issue anomalies))).

Definition validate_ad (today : datetime) (ad_data : pydict) : result pydict :=
  '(is_valid, issues) ← validate_ad_data today ad_data;
  let result : pydict := {["valid" := PBool is_valid]} in
  Ok (match is_valid, issues with
      | false, issue :: _ => <["reason" := PStr issue]> result
      | _, _ => result
      end).

(** *** [validate_multiple_ads] (lines 225-260) *)

(** [all_issues], a dict whose keys are the ids as the ads give them:
    [all_issues[ad_id] = issues] replaces the entry of an equal key and
    appends otherwise; a list or a dict is not hashable.  Two NaN ids are
    taken to be distinct objects. *)
Fixpoint set_issues (ad_id : pyval) (issues : list string)
  (all_issues : list (pyval * list string)) : list (pyval * list string) :=
  match all_issues with
  | [] => [(ad_id, issues)]
  | (k, v) :: rest =>
      if py_eq_atom k ad_id then (k, issues) :: rest
      else (k, v) :: set_issues ad_id issues rest
  end.

Definition hashable (v : pyval) : bool :=
  match v with PList _ | PDict _ => false | _ => true end.

Record validation : Type := {
  valid_ads : list pydict;
  invalid_ads : list pyval;
  issues : list (pyval * list string);
  total_ads : nat;
  valid_count : nat;
  invalid_count : nat
}.

(** The loop of lines 241-249, from the lists collected so far.  Every ad
    comes with the reading of the clock at its turn. *)
Fixpoint validate_each (ads_data : list (datetime * pydict))
  (valid_ads : list pydict) (invalid_ads : list pyval)
  (all_issues : list (pyval * list string))
  : result (list pydict * list pyval * list (pyval * list string)) :=
  match ads_data with
  | [] => Ok (valid_ads, invalid_ads, all_issues)
  | (today, ad_data) :: rest =>
      let ad_id := dget ad_data "ad_id" (PStr "unknown") in
      '(is_valid, issues) ← validate_ad_data today ad_data;
      if is_valid : bool then
        validate_each rest (app valid_ads [ad_data]) invalid_ads all_issues
      else if hashable ad_id then
        validate_each rest valid_ads (app invalid_ads [ad_id])
          (set_issues ad_id issues all_issues)
      else Raise TypeError
  end.

Definition validate_multiple_ads (ads_data : list (datetime * pydict))
  : result validation :=
  '(valid_ads, invalid_ads, all_issues) ← validate_each ads_data [] [] [];
  Ok {| valid_ads := valid_ads;
        invalid_ads := invalid_ads;
        issues := all_issues;
        total_ads := length ads_data;
        valid_count := length valid_ads;
        invalid_count := length invalid_ads |}.

End Messages.

End DataValidatorChecks.

(** ** Reasoning support *)

Lemma bind_Ok {A B} (m : result A) (f : A → result B) b :
  (m ≫= f) = Ok b ↔ ∃ a, m = Ok a ∧ f a = Ok b.
Proof.
  destruct m as [a|e]; simpl; split.
  - intros H. by exists a.
  - by intros (a' & [= ->] & H).
  - done.
  - by intros (a' & [=] & _).
Qed.

Lemma fmap_Ok {A B} (m : result A) (f : A → B) b :
  (f <$> m) = Ok b ↔ ∃ a, m = Ok a ∧ f a = b.
Proof.
  destruct m as [a|e]; simpl; split.
  - intros [= <-]. by exists a.
  - by intros (a' & [= ->] & <-).
  - done.
  - by intros (a' & [=] & _).
Qed.



(** Splits a hypothesis [x ← e; k = Ok b] into [e = Ok a] and [k a = Ok b]. *)
Ltac inv_bind H :=
  let a := fresh "a" in
  let Ha := fresh "Ha" in
  apply bind_Ok in H as (a & Ha & H); cbv zeta in H.

Ltac inv_binds H := repeat inv_bind H.

(** Reads a key through a chain of [insert]s. *)
Ltac map_simpl :=
  repeat first
    [ rewrite lookup_insert_eq
    | rewrite lookup_insert_ne by done
    | rewrite lookup_empty ].

Ltac map_simpl_in H :=
  repeat first
    [ rewrite lookup_insert_eq in H
    | rewrite lookup_insert_ne in H by done
    | rewrite lookup_empty in H ].

Lemma dget_None (d : pydict) k dflt : d !! k = None → dget d k dflt = dflt.
Proof. unfold dget. by intros ->. Qed.

Lemma dget_Some (d : pydict) k dflt v : d !! k = Some v → dget d k dflt = v.
Proof. unfold dget. by intros ->. Qed.

(** ** Facts about the extractors *)

Module MetaApiClientFacts.
Import MetaApiClient.

Lemma get_ad_metrics_row (response metrics_data : pydict) (rest : list pyval) :
  response !! "data" = Some (PList (PDict metrics_data :: rest)) →
  get_ad_metrics response = metrics_of_insight metrics_data.
Proof.
  intros H. unfold get_ad_metrics. by rewrite (dget_Some _ _ _ _ H).
Qed.

(** What a successful [get_ad_metrics] stored under the keys the claims
    speak about. *)
Lemma metrics_of_insight_inv (md m : pydict) :
  metrics_of_insight md = Ok m →
  ∃ spend impressions clicks ctr conv found views,
    py_float (dget md "spend" (PInt 0)) = Ok spend ∧
    py_int (dget md "impressions" (PInt 0)) = Ok impressions ∧
    py_int (dget md "clicks" (PInt 0)) = Ok clicks ∧
    py_float (dget md "ctr" (PInt 0)) = Ok ctr ∧
    match dget md "conversions" (PInt 0) with
    | PList items => sum_values items 0
    | _ => py_int_float (dget md "conversions" (PInt 0))
    end = Ok conv ∧
    video_count (dget md "video_thruplay_watched_actions" (PList [])) = Ok found ∧
    (if negb (truthy (dget md "video_thruplay_watched_actions" (PList [])))
        && (0 <? impressions)
     then estimate_views (NInt impressions) 0.35 else Ok found) = Ok views ∧
    m !! "spend" = Some (PFloat spend) ∧
    m !! "impressions" = Some (PInt impressions) ∧
    m !! "clicks" = Some (PInt clicks) ∧
    m !! "ctr" = Some (PFloat ctr) ∧
    m !! "conversions" = Some (PInt conv) ∧
    m !! "video_3_sec_views" = Some (PInt views) ∧
    (0 < impressions →
     ∃ hook,
       (if 0 <? views then rate_percent (NInt views) (NInt impressions)
        else Ok (PInt 0)) = Ok hook ∧
       m !! "hook_rate" = Some hook) ∧
    (impressions ≤ 0 → m !! "hook_rate" = None).
Proof.
  intros H. unfold metrics_of_insight in H. inv_binds H.
  map_simpl_in H.
  exists a, a0, a1, a2, a4, a11, a12.
  do 7 (split; [done|]).
  destruct (0 <? a0) eqn:Hpos.
  - inv_binds H. injection H as <-. map_simpl.
    do 6 (split; [done|]). split; [|lia].
    intros _. by exists a15.
  - injection H as <-. map_simpl.
    do 6 (split; [done|]). split; [lia|done].
Qed.

Lemma format_breakdown_item_inv (fields : list string) (item m : pydict) :
  format_breakdown_item fields item = Ok m →
  ∃ spend impressions clicks found views,
    py_float (dget item "spend" (PInt 0)) = Ok spend ∧
    py_int (dget item "impressions" (PInt 0)) = Ok impressions ∧
    py_int (dget item "clicks" (PInt 0)) = Ok clicks ∧
    video_count (dget item "video_thruplay_watched_actions" (PList [])) = Ok found ∧
    (if is_empty_list (dget item "video_thruplay_watched_actions" (PList []))
        && (0 <? impressions)
     then estimate_views (NInt impressions) 0.35 else Ok found) = Ok views ∧
    m !! "spend" = Some (PFloat spend) ∧
    m !! "impressions" = Some (PInt impressions) ∧
    m !! "clicks" = Some (PInt clicks) ∧
    m !! "video_3_sec_views" = Some (PInt views) ∧
    (0 < impressions →
     ∃ hook,
       (if 0 <? views then rate_percent (NInt views) (NInt impressions)
        else Ok (PInt 0)) = Ok hook ∧
       m !! "hook_rate" = Some hook).
Proof.
  intros H. unfold format_breakdown_item in H. inv_binds H.
  injection H as <-.
  exists a, a1, a3, a6, a7.
  do 5 (split; [done|]).
  destruct (0 <? a1) eqn:Hpos.
  - match goal with H : _ ≫= _ = Ok a10 |- _ => inv_binds H; injection H as <- end.
    map_simpl. do 4 (split; [done|]). intros _. eauto.
  - match goal with H : Ok _ = Ok a10 |- _ => injection H as <- end.
    map_simpl. do 4 (split; [done|]). lia.
Qed.

Lemma format_breakdown_data_lookup raw fields out (i : nat) item :
  format_breakdown_data raw fields = Ok out →
  raw !! i = Some item →
  ∃ m, out !! i = Some m ∧ format_breakdown_item fields item = Ok m.
Proof.
  revert out i. induction raw as [|x raw IH]; intros out i H Hi; [done|].
  simpl in H. inv_binds H. injection H as <-.
  destruct i as [|i]; simpl in *.
  - injection Hi as ->. eauto.
  - by apply IH.
Qed.

Lemma format_breakdown_data_length raw fields out :
  format_breakdown_data raw fields = Ok out → length out = length raw.
Proof.
  revert out. induction raw as [|x raw IH]; intros out H; simpl in H.
  - by injection H as <-.
  - inv_binds H. injection H as <-. simpl. f_equal. by apply IH.
Qed.




(** [m] is the record that [get_ad_metrics] builds from the first row
    [md] of an API response. *)
Definition got_ad_metrics (md m : pydict) : Prop :=
  ∃ response rest,
    response !! "data" = Some (PList (PDict md :: rest)) ∧
    get_ad_metrics response = Ok m.

(** [m] is the record that [_format_breakdown_data] builds from a row [md]
    of its input. *)
Definition formatted_breakdown (md m : pydict) : Prop :=
  ∃ raw_data breakdown_fields out (i : nat),
    raw_data !! i = Some md ∧
    format_breakdown_data raw_data breakdown_fields = Ok out ∧
    out !! i = Some m.

Lemma got_ad_metrics_row (md m : pydict) :
  got_ad_metrics md m ↔ metrics_of_insight md = Ok m.
Proof.
  split.
  - intros (response & rest & Hdata & H).
    by rewrite (get_ad_metrics_row _ _ _ Hdata) in H.
  - intros H. exists {["data" := PList [PDict md]]}, [].
    split; [by rewrite lookup_singleton_eq|].
    by rewrite (get_ad_metrics_row _ md []) by by rewrite lookup_singleton_eq.
Qed.

Lemma formatted_breakdown_row (md m : pydict) :
  formatted_breakdown md m ↔ ∃ fields, format_breakdown_item fields md = Ok m.
Proof.
  split.
  - intros (raw & fields & out & i & Hi & H & Ho).
    destruct (format_breakdown_data_lookup _ _ _ _ _ H Hi) as (m' & Hm' & Hitem).
    exists fields. congruence.
  - intros (fields & H). exists [md], fields, [m], 0%nat.
    repeat split; try done. simpl. by rewrite H.
Qed.

(** *** Conversions given as a list *)

Definition action (ty value : string) : pyval :=
  PDict {["action_type" := PStr ty; "value" := PStr value]}.







(** *** Missing and unparsable numeric fields *)













(** *** The estimate of the 3-second views *)

(** [hook_rate] as computed from a view count: [(views / impressions) * 100]
    when [views > 0], the integer [0] otherwise. *)
Definition hook_rate_of (views impressions : Z) : result pyval :=
  if 0 <? views then rate_percent (NInt views) (NInt impressions)
  else Ok (PInt 0).

Definition row_1000 : pydict := {["impressions" := PStr "1000"]}.

Definition row_1000_metrics : pydict :=
  Eval vm_compute in
    match metrics_of_insight row_1000 with Ok m => m | Raise _ => ∅ end.

Lemma views_and_hook (md m : pydict) (n : Z) :
  got_ad_metrics md m ∨ formatted_breakdown md m →
  py_int (dget md "impressions" (PInt 0)) = Ok n →
  0 < n →
  let field := dget md "video_thruplay_watched_actions" (PList []) in
  ∃ found views hook (estimated : bool),
    video_count field = Ok found ∧
    (if estimated then estimate_views (NInt n) 0.35 else Ok found) = Ok views ∧
    hook_rate_of views n = Ok hook ∧
    m !! "video_3_sec_views" = Some (PInt views) ∧
    m !! "hook_rate" = Some hook ∧
    (field = PList [] → estimated = true) ∧
    (∀ x xs, field = PList (x :: xs) → estimated = false).
Proof.
  intros Hm Hn Hpos field.
  assert (Hlt : (0 <? n) = true) by (apply Z.ltb_lt; lia).
  destruct Hm as [H|H].
  - apply got_ad_metrics_row, metrics_of_insight_inv in H
      as (? & imp & ? & ? & ? & found & views & _ & Himp & _ & _ & _ & Hf & Hv
          & _ & _ & _ & _ & _ & Hmv & Hhook & _).
    rewrite Hn in Himp. injection Himp as <-.
    destruct (Hhook Hpos) as (hook & Hh & Hmh).
    rewrite Hlt, andb_true_r in Hv.
    exists found, views, hook, (negb (truthy field)).
    repeat split; try done; by intros; subst field; rewrite H.
  - apply formatted_breakdown_row in H as (fields & H).
    apply format_breakdown_item_inv in H
      as (? & imp & ? & found & views & _ & Himp & _ & Hf & Hv & _ & _ & _
          & Hmv & Hhook).
    rewrite Hn in Himp. injection Himp as <-.
    destruct (Hhook Hpos) as (hook & Hh & Hmh).
    rewrite Hlt, andb_true_r in Hv.
    exists found, views, hook, (is_empty_list field).
    repeat split; try done; by intros; subst field; rewrite H.
Qed.

Lemma estimate_1000 : estimate_views (NInt 1000) 0.35 = Ok 350.
Proof. reflexivity. Qed.

Lemma hook_rate_350_1000 : hook_rate_of 350 1000 = Ok (PFloat 35).
Proof. reflexivity. Qed.

(** C3: for a row with [impressions = n > 0], whether it goes through
    [get_ad_metrics] or [_format_breakdown_data]:
    - if the 3-second-view field is absent or the empty list, the view count
      is [int(n * 0.35)] and [hook_rate] is computed from it; for [n = 1000]
      that is [35.0] in both cases;
    - if the field is a non-empty list in which the loop finds the value 0,
      the view count stays 0 and [hook_rate] is the integer 0. *)
Theorem hook_rate_estimate (md m : pydict) (n : Z) :
  got_ad_metrics md m ∨ formatted_breakdown md m →
  py_int (dget md "impressions" (PInt 0)) = Ok n →
  0 < n →
  (md !! "video_thruplay_watched_actions" = None ∨
   md !! "video_thruplay_watched_actions" = Some (PList []) →
   ∃ views hook,
     estimate_views (NInt n) 0.35 = Ok views ∧
     hook_rate_of views n = Ok hook ∧
     m !! "video_3_sec_views" = Some (PInt views) ∧
     m !! "hook_rate" = Some hook ∧
     (n = 1000 → views = 350 ∧ hook = PFloat 35)) ∧
  (∀ x xs,
     md !! "video_thruplay_watched_actions" = Some (PList (x :: xs)) →
     first_video_view (x :: xs) 0 = Ok 0 →
     m !! "video_3_sec_views" = Some (PInt 0) ∧
     m !! "hook_rate" = Some (PInt 0)).
Proof.
  intros Hm Hn Hpos.
  destruct (views_and_hook md m n Hm Hn Hpos)
    as (found & views & hook & est & Hf & Hv & Hh & Hmv & Hmh & Hempty & Hfull).
  split.
  - intros Hfield.
    assert (dget md "video_thruplay_watched_actions" (PList []) = PList [])
      as Hd by (destruct Hfield as [H|H];
                [by apply dget_None|by apply dget_Some]).
    rewrite (Hempty Hd) in Hv.
    exists views, hook. do 4 (split; [done|]).
    intros ->. rewrite estimate_1000 in Hv. injection Hv as <-.
    rewrite hook_rate_350_1000 in Hh. by injection Hh as <-.
  - intros x xs Hfield Hzero.
    apply (dget_Some _ _ (PList [])) in Hfield.
    rewrite (Hfull _ _ Hfield) in Hv. rewrite Hfield in Hf.
    unfold video_count in Hf. simpl truthy in Hf. cbv iota in Hf.
    simpl py_iter in Hf. change (first_video_view (x :: xs) 0 = Ok found) in Hf.
    rewrite Hzero in Hf. injection Hf as <-. injection Hv as <-.
    unfold hook_rate_of in Hh. simpl in Hh. by injection Hh as <-.
Qed.

Lemma hook_rate_estimate_witness :
  (row_1000 !! "video_thruplay_watched_actions" = None ∨
   row_1000 !! "video_thruplay_watched_actions" = Some (PList []) →
   ∃ views hook,
     estimate_views (NInt 1000) 0.35 = Ok views ∧
     hook_rate_of views 1000 = Ok hook ∧
     row_1000_metrics !! "video_3_sec_views" = Some (PInt views) ∧
     row_1000_metrics !! "hook_rate" = Some hook ∧
     (1000 = 1000 → views = 350 ∧ hook = PFloat 35)) ∧
  (∀ x xs,
     row_1000 !! "video_thruplay_watched_actions" = Some (PList (x :: xs)) →
     first_video_view (x :: xs) 0 = Ok 0 →
     row_1000_metrics !! "video_3_sec_views" = Some (PInt 0) ∧
     row_1000_metrics !! "hook_rate" = Some (PInt 0)).
Proof.
  apply (hook_rate_estimate row_1000 row_1000_metrics 1000).
  - left. apply got_ad_metrics_row. vm_compute. reflexivity.
  - reflexivity.
  - lia.
Defined.

(** *** Eligibility: the scoping filters *)

Lemma eligible_by_date_elem all_ads days_ago adsets campaigns by_date ad :
  eligible_by_date all_ads days_ago adsets campaigns = Ok by_date →
  ad ∈ by_date ↔
  ad ∈ all_ads ∧
  ∃ created adset_id campaign_id,
    created_date ad = Ok (Some created) ∧
    datetime_le created days_ago = true ∧
    nested_get ad "adset" "id" = Ok adset_id ∧
    nested_get ad "campaign" "id" = Ok campaign_id ∧
    include_ad adset_id campaign_id adsets campaigns = true.
Proof.
  revert by_date. induction all_ads as [|x all_ads IH]; intros by_date H.
  - simpl in H. injection H as <-. split; [by intros ?%elem_of_nil|].
    by intros [?%elem_of_nil _].
  - simpl in H. inv_binds H. injection H as <-.
    specialize (IH _ Ha2).
    assert (a1 = true ↔
      ∃ created adset_id campaign_id,
        created_date x = Ok (Some created) ∧
        datetime_le created days_ago = true ∧
        nested_get x "adset" "id" = Ok adset_id ∧
        nested_get x "campaign" "id" = Ok campaign_id ∧
        include_ad adset_id campaign_id adsets campaigns = true) as Hkeep.
    { rewrite Ha0. unfold nested_get. destruct a0 as [created|].
      - destruct (datetime_le created days_ago) eqn:Hle.
        + inv_binds Ha1. injection Ha1 as <-. rewrite Ha3. simpl.
          rewrite Ha4, Ha5. simpl. rewrite Ha6. split.
          * intros Hinc. by exists created, a3, a5.
          * by intros (? & ? & ? & [= <-] & _ & [= <-] & [= <-] & ?).
        + injection Ha1 as <-. split; [done|].
          intros (? & ? & ? & [= <-] & ? & _). congruence.
      - injection Ha1 as <-. split; [done|]. by intros (? & ? & ? & [=] & _). }
    destruct a1.
    + rewrite elem_of_cons, IH. split.
      * intros [->|[Hin Hx]]; [|split; [by right|done]].
        split; [by left|]. by apply Hkeep.
      * intros [[->|Hin]%elem_of_cons Hx]; [by left|by right].
    + rewrite IH. split.
      * intros [Hin Hx]. split; [by right|done].
      * intros [[->|Hin]%elem_of_cons Hx]; [|done].
        apply Hkeep in Hx. done.
Qed.

Definition old_ad (adset campaign : string) : pyval :=
  PDict {["id" := PStr "1"; "created_time" := PStr "2024-01-01T08:00:00+0000";
          "adset" := PDict {["id" := PStr adset]};
          "campaign" := PDict {["id" := PStr campaign]}]}.

(** C4: an ad that passes the age check is kept by stage 1 of
    [find_eligible_ads] exactly when [include_ad] holds, and
    - with no active filter it is kept;
    - with only the adset (only the campaign) allow-list it is kept iff its
      adset (campaign) id is in the list;
    - with both allow-lists it is kept iff it is in one of them: in the
      campaign list but not the adset list, it is kept; in neither, it is
      not. *)
Theorem scoping_filters all_ads days_ago adsets campaigns by_date
  (ad : pyval) created adset_id campaign_id :
  eligible_by_date all_ads days_ago adsets campaigns = Ok by_date →
  ad ∈ all_ads →
  created_date ad = Ok (Some created) →
  datetime_le created days_ago = true →
  nested_get ad "adset" "id" = Ok adset_id →
  nested_get ad "campaign" "id" = Ok campaign_id →
  (ad ∈ by_date ↔ include_ad adset_id campaign_id adsets campaigns = true) ∧
  (filter_active adsets = false → filter_active campaigns = false →
   ad ∈ by_date) ∧
  (filter_active adsets = true → filter_active campaigns = false →
   (ad ∈ by_date ↔ in_ids adset_id adsets = true)) ∧
  (filter_active adsets = false → filter_active campaigns = true →
   (ad ∈ by_date ↔ in_ids campaign_id campaigns = true)) ∧
  (filter_active adsets = true → filter_active campaigns = true →
   (ad ∈ by_date ↔
    in_ids adset_id adsets = true ∨ in_ids campaign_id campaigns = true) ∧
   (in_ids campaign_id campaigns = true → ad ∈ by_date) ∧
   (in_ids adset_id adsets = false → in_ids campaign_id campaigns = false →
    ad ∉ by_date)).
Proof.
  intros H Hin Hc Hle Ha Hcamp.
  assert (ad ∈ by_date ↔ include_ad adset_id campaign_id adsets campaigns = true)
    as Hiff.
  { rewrite (eligible_by_date_elem _ _ _ _ _ _ H). split.
    - intros (_ & ? & ? & ? & ? & ? & ? & ? & ?). congruence.
    - intros Hinc. split; [done|]. by exists created, adset_id, campaign_id. }
  split; [done|]. rewrite !Hiff. unfold include_ad.
  destruct (filter_active adsets), (filter_active campaigns),
    (in_ids adset_id adsets), (in_ids campaign_id campaigns);
    simpl; intuition congruence.
Qed.

Lemma scoping_filters_witness :
  (old_ad "B" "C" ∈ [old_ad "B" "C"] ↔
   include_ad (PStr "B") (PStr "C") (Some ["A"]) (Some ["C"]) = true) ∧
  (filter_active (Some ["A"]) = false → filter_active (Some ["C"]) = false →
   old_ad "B" "C" ∈ [old_ad "B" "C"]) ∧
  (filter_active (Some ["A"]) = true → filter_active (Some ["C"]) = false →
   (old_ad "B" "C" ∈ [old_ad "B" "C"] ↔ in_ids (PStr "B") (Some ["A"]) = true)) ∧
  (filter_active (Some ["A"]) = false → filter_active (Some ["C"]) = true →
   (old_ad "B" "C" ∈ [old_ad "B" "C"] ↔ in_ids (PStr "C") (Some ["C"]) = true)) ∧
  (filter_active (Some ["A"]) = true → filter_active (Some ["C"]) = true →
   (old_ad "B" "C" ∈ [old_ad "B" "C"] ↔
    in_ids (PStr "B") (Some ["A"]) = true ∨ in_ids (PStr "C") (Some ["C"]) = true) ∧
   (in_ids (PStr "C") (Some ["C"]) = true → old_ad "B" "C" ∈ [old_ad "B" "C"]) ∧
   (in_ids (PStr "B") (Some ["A"]) = false →
    in_ids (PStr "C") (Some ["C"]) = false →
    old_ad "B" "C" ∉ [old_ad "B" "C"])).
Proof.
  apply (scoping_filters [old_ad "B" "C"] {| day := 739000; micros := 5 |}
           (Some ["A"]) (Some ["C"]) [old_ad "B" "C"] (old_ad "B" "C")
           {| day := 738886; micros := 0 |}).
  - vm_compute. reflexivity.
  - apply list_elem_of_singleton. reflexivity.
  - vm_compute. reflexivity.
  - vm_compute. reflexivity.
  - vm_compute. reflexivity.
  - vm_compute. reflexivity.
Defined.

(** *** Eligibility: the spend threshold *)

Lemma insert_desc_elem {A} (key : A → num) (x y : A) (l : list A) :
  y ∈ insert_desc key x l ↔ y = x ∨ y ∈ l.
Proof.
  induction l as [|z l IH]; simpl.
  - rewrite list_elem_of_singleton, elem_of_nil. tauto.
  - destruct (num_lt _ _); rewrite !elem_of_cons, ?IH; tauto.
Qed.

Lemma sorted_desc_elem {A} (key : A → num) (y : A) (l : list A) :
  y ∈ sorted_desc key l ↔ y ∈ l.
Proof.
  unfold sorted_desc. induction l as [|x l IH]; simpl; [done|].
  by rewrite insert_desc_elem, elem_of_cons, IH.
Qed.

(** The record built for an insight row carries that row's spend. *)
Lemma ad_data_of_insight_spend batch insight d :
  ad_data_of_insight batch insight = Ok (Some d) →
  ∃ x, py_float (dget insight "spend" (PInt 0)) = Ok x ∧
       d !! "spend" = Some (PFloat x).
Proof.
  unfold ad_data_of_insight. intros H. inv_binds H.
  destruct (truthy a); [|done]. inv_binds H. injection H as <-.
  eexists. split; [done|]. reflexivity.
Qed.

Lemma ads_of_insights_elem batch batch_insights found d :
  ads_of_insights batch batch_insights = Ok found →
  d ∈ found →
  ∃ insight, insight ∈ batch_insights ∧
             ad_data_of_insight batch insight = Ok (Some d).
Proof.
  revert found. induction batch_insights as [|i rest IH]; intros found H Hd;
    simpl in H.
  - injection H as <-. by apply elem_of_nil in Hd.
  - inv_binds H. injection H as <-. destruct a as [d'|].
    + apply elem_of_cons in Hd as [->|Hd].
      * exists i. split; [by left|done].
      * destruct (IH _ Ha0 Hd) as (i' & ? & ?). exists i'. split; [by right|done].
    + destruct (IH _ Ha0 Hd) as (i' & ? & ?). exists i'. split; [by right|done].
Qed.

Lemma stage2_spend account_rows min_spend batches found d :
  stage2 account_rows min_spend batches = Ok found →
  d ∈ found →
  ∃ x, d !! "spend" = Some (PFloat x) ∧ num_gt (NFloat x) min_spend = true.
Proof.
  revert found. induction batches as [|batch rest IH]; intros found H Hd;
    simpl in H.
  - injection H as <-. by apply elem_of_nil in Hd.
  - inv_binds H. injection H as <-.
    apply elem_of_app in Hd as [Hd|Hd]; [|by eapply IH].
    destruct (ads_of_insights_elem _ _ _ _ Ha0 Hd) as (insight & Hin & Hi).
    apply list_elem_of_filter in Hin as [Hpass _].
    apply Is_true_true, andb_true_iff in Hpass as [_ Hgt].
    destruct (ad_data_of_insight_spend _ _ _ Hi) as (x & Hx & Hdx).
    exists x. split; [done|].
    unfold spend_greater_than in Hgt. by rewrite Hx in Hgt.
Qed.

Lemma find_eligible_ads_spend today all_ads account_rows days min_spend
  adsets campaigns found d :
  find_eligible_ads today all_ads account_rows days min_spend adsets campaigns
  = Ok found →
  d ∈ found →
  ∃ x, d !! "spend" = Some (PFloat x) ∧ num_gt (NFloat x) min_spend = true.
Proof.
  unfold find_eligible_ads. intros H Hd. inv_binds H.
  match type of H with
  | match ?g with _ => _ end = _ => destruct g as [l|e] eqn:Hg
  end; injection H as <-; [|by apply elem_of_nil in Hd].
  inv_binds Hg.
  destruct (negb _) in Hg;
    [injection Hg as <-; by apply elem_of_nil in Hd|].
  inv_binds Hg.
  destruct (negb _) in Hg;
    [injection Hg as <-; by apply elem_of_nil in Hd|].
  inv_binds Hg. injection Hg as <-.
  apply sorted_desc_elem in Hd. by eapply stage2_spend.
Qed.

End MetaApiClientFacts.

(** ** Facts about the validator *)

Module DataValidatorFacts.
Import MetaApiClient DataValidator MetaApiClientFacts.

(** An ad created long ago whose spend, in the queried window, is [spend]. *)
Definition at_threshold_ads : list pyval := [old_ad "A" "C"].

Definition window_rows (spend : string) : Z → Z → list pydict :=
  λ _ _, [{["ad_id" := PStr "1"; "spend" := PStr spend]}].

Definition a_monday : datetime := {| day := 739000; micros := 0 |}.

Definition validated (spend : float) : pydict :=
  {["metrics" := PDict {["spend" := PFloat spend]}]}.

(** C6: [find_eligible_ads] keeps an ad only if its spend in the window is
    strictly greater than the threshold; [_check_spend_threshold] accepts a
    spend greater than or equal to it; an ad that spent exactly the
    threshold (250.0) is accepted by the validator and not kept by
    [find_eligible_ads], which keeps it as soon as it spent 250.01. *)
Theorem spend_threshold_operators :
  (∀ today all_ads account_rows days min_spend adsets campaigns found d,
     find_eligible_ads today all_ads account_rows days min_spend
       adsets campaigns = Ok found →
     d ∈ found →
     ∃ x, d !! "spend" = Some (PFloat x) ∧
          num_gt (NFloat x) min_spend = true) ∧
  (∀ spend_threshold ad_data metrics,
     ad_data !! "metrics" = Some metrics →
     check_spend_threshold spend_threshold ad_data
     = (spend ← py_get metrics "spend" (PInt 0);
        n ← the_num spend; Ok (num_ge n spend_threshold))) ∧
  check_spend_threshold (NFloat 250) (validated 250) = Ok true ∧
  find_eligible_ads a_monday (Ok at_threshold_ads) (window_rows "250.00")
    7 (NFloat 250) None None = Ok [] ∧
  (∃ d, find_eligible_ads a_monday (Ok at_threshold_ads) (window_rows "250.01")
          7 (NFloat 250) None None = Ok [d] ∧
        d !! "spend" = Some (PFloat 250.01)).
Proof.
  split; [apply find_eligible_ads_spend|].
  split.
  { intros t ad_data metrics H. unfold check_spend_threshold. by rewrite H. }
  split; [by vm_compute|].
  split; [by vm_compute|].
  eexists. split; [by vm_compute|]. by vm_compute.
Qed.

End DataValidatorFacts.

(** ** Facts about the performance analyzer *)

Module PerformanceAnalyzerFacts.
Import PerformanceAnalyzer.

(** *** Comparison without benchmarks *)

(** No BenchmarkSet is available: the analyzer has no benchmarks and no
    client to calculate them with, or the calculation came back empty, or
    the benchmarks it holds have no (or an empty) ['benchmarks'] entry. *)
Inductive no_benchmark_set (a : analyzer) : Prop :=
| no_client :
    truthy (benchmarks a) = false → client a = None → no_benchmark_set a
| nothing_calculated c :
    truthy (benchmarks a) = false → client a = Some c →
    calculate_benchmarks c !! "benchmarks" = Some (PDict ∅) →
    no_benchmark_set a
| empty_entry d :
    benchmarks a = PDict d → truthy (PDict d) = true →
    dget d "benchmarks" (PDict ∅) = PDict ∅ →
    no_benchmark_set a.

(** The metrics of an ad record: a dict whose tracked metrics, where
    present, are numbers. *)
Definition numeric_metrics (ad_data : pydict) : Prop :=
  ∃ m, dget ad_data "metrics" (PDict ∅) = PDict m ∧
       ∀ k v, k ∈ tracked_metrics → m !! k = Some v → is_int_or_float v = true.

Lemma no_benchmark_set_entry (a : analyzer) :
  no_benchmark_set a →
  benchmarks_entry (ensure_benchmarks a) "benchmarks" = Ok (PDict ∅).
Proof.
  unfold benchmarks_entry, ensure_benchmarks.
  intros [Hf Hc|c Hf Hc Hcalc|d Hb Ht Hd].
  - by rewrite Hc, Hf.
  - rewrite Hc, Hf. simpl. unfold dget. rewrite Hcalc.
    by destruct (map_to_list _).
  - rewrite Hb, Ht. destruct (client a); cbn [negb];
      rewrite Hb, Ht; cbn [py_get]; by rewrite Hd.
Qed.

Lemma compare_metric_no_benchmark lower k (m : pydict) :
  compare_metric lower k (PDict m) (PDict ∅) = Ok (PInt 0).
Proof. unfold compare_metric. simpl. by destruct (has_key m k). Qed.

Lemma metric_counted (m : pydict) (k : string) :
  (∀ v, m !! k = Some v → is_int_or_float v = true) →
  ∃ b : bool, metric_positive (PDict m) k = Ok b.
Proof.
  intros H. unfold metric_positive, py_contains, has_key, py_subscript.
  destruct (m !! k) as [v|] eqn:Hv.
  - rewrite bool_decide_true by eauto. simpl.
    specialize (H v eq_refl). destruct v; try done; simpl; eauto.
  - rewrite bool_decide_false by (by intros [? ?]). by exists false.
Qed.

Lemma availability_bounded (m : pydict) (names : list string) :
  (∀ k v, k ∈ names → m !! k = Some v → is_int_or_float v = true) →
  ∃ n, metrics_availability (PDict m) names = Ok n ∧
       0 ≤ n ≤ Z.of_nat (length names).
Proof.
  induction names as [|k names IH]; intros H.
  - exists 0. by split.
  - destruct IH as (n & Hn & Hb); [intros; eapply H; [by right|done]|].
    destruct (metric_counted m k) as [b Hk]; [intros; eapply H; [by left|done]|].
    exists (Z.b2z b + n). split.
    + cbn [metrics_availability]. rewrite Hk. simpl. by rewrite Hn.
    + simpl length. destruct b; simpl; lia.
Qed.

Lemma stability_defined (n : Z) :
  0 ≤ n ≤ 6 →
  ∃ s, (share ← num_div (NInt n) (NInt 6); num_mul share (NInt 100)) = Ok s.
Proof.
  intros H.
  assert (n = 0 ∨ n = 1 ∨ n = 2 ∨ n = 3 ∨ n = 4 ∨ n = 5 ∨ n = 6)
    as [->|[->|[->|[->|[->|[->| ->]]]]]] by lia;
    vm_compute; eauto.
Qed.

Definition zero_deltas : pydict :=
  {["ctr_vs_benchmark" := PInt 0; "cpa_vs_benchmark" := PInt 0;
    "roas_vs_benchmark" := PInt 0; "cpm_vs_benchmark" := PInt 0;
    "hook_rate_vs_benchmark" := PInt 0;
    "viewthrough_rate_vs_benchmark" := PInt 0]}.

Lemma weighted_sum_zero_deltas :
  weighted_sum
    (<["viewthrough_rate_vs_benchmark" := PInt 0]>
      (<["hook_rate_vs_benchmark" := PInt 0]>
        (<["cpm_vs_benchmark" := PInt 0]> (<["roas_vs_benchmark" := PInt 0]>
          (<["cpa_vs_benchmark" := PInt 0]>
            (<["ctr_vs_benchmark" := PInt 0]> ∅))))))
    weights (PInt 0)
  = Ok (PFloat 0).
Proof. reflexivity. Qed.

Definition bare_analyzer : analyzer := {| client := None; benchmarks := PNone |}.

Definition sample_ad : pydict :=
  {["ad_id" := PStr "12345";
    "metrics" := PDict {["spend" := PFloat 75.5; "ctr" := PFloat 1.5;
                         "cpa" := PFloat 6.29; "roas" := PFloat 4.2]}]}.

(** C8: without a BenchmarkSet, [compare_to_benchmarks] returns (it does
    not raise) a comparison whose six deltas are all the integer 0, whose
    weighted score is [0.0] and whose rating is ["Average"]. *)
Theorem comparison_without_benchmarks (a : analyzer) (ad_data : pydict) :
  no_benchmark_set a →
  numeric_metrics ad_data →
  ∃ out a',
    compare_to_benchmarks a ad_data = Ok (out, a') ∧
    out !! "metrics_vs_benchmark" = Some (PDict zero_deltas) ∧
    (∀ k, k ∈ weights.*1 → zero_deltas !! k = Some (PInt 0)) ∧
    out !! "overall_performance_score" = Some (PFloat 0) ∧
    out !! "performance_rating" = Some (PStr "Average") ∧
    rating_of (NFloat 0) = "Average".
Proof.
  intros Hnb (m & Hm & Hnum).
  destruct (availability_bounded m tracked_metrics Hnum) as (n & Hn & Hb).
  destruct (stability_defined n Hb) as (s & Hs).
  apply bind_Ok in Hs as (share & Hshare & Hs).
  unfold compare_to_benchmarks. cbv zeta.
  rewrite (no_benchmark_set_entry a Hnb), Hm. cbn [mbind result_bind].
  rewrite !compare_metric_no_benchmark. cbn [mbind result_bind].
  rewrite weighted_sum_zero_deltas. cbn [mbind result_bind the_num as_num].
  rewrite Hn. cbn [mbind result_bind].
  rewrite Hshare. cbn [mbind result_bind].
  rewrite Hs. cbn [mbind result_bind].
  eexists _, _. split; [reflexivity|].
  split; [reflexivity|].
  split; [|by repeat split].
  intros k Hk. simpl in Hk.
  repeat (apply elem_of_cons in Hk as [->|Hk]; [reflexivity|]).
  by apply elem_of_nil in Hk.
Qed.

Lemma comparison_without_benchmarks_witness :
  ∃ out a',
    compare_to_benchmarks bare_analyzer sample_ad = Ok (out, a') ∧
    out !! "metrics_vs_benchmark" = Some (PDict zero_deltas) ∧
    (∀ k, k ∈ weights.*1 → zero_deltas !! k = Some (PInt 0)) ∧
    out !! "overall_performance_score" = Some (PFloat 0) ∧
    out !! "performance_rating" = Some (PStr "Average") ∧
    rating_of (NFloat 0) = "Average".
Proof.
  apply (comparison_without_benchmarks bare_analyzer sample_ad).
  - by apply no_client.
  - eexists. split; [reflexivity|].
    intros k v Hk. simpl in Hk.
    repeat (apply elem_of_cons in Hk as [->|Hk];
            [vm_compute; by intros [= <-]|]).
    by apply elem_of_nil in Hk.
Defined.

(** *** Ranking of the segments *)

(** An analyzer with segment benchmarks, and an ad with two segments: women
    of 25-34 have a click-through rate of 3%, men of 18-24 of 2%, against a
    benchmark of 1% for both. *)
Definition segment_benchmark : pyval := PDict {["ctr" := PFloat 0.01]}.

Definition segmented_analyzer : analyzer :=
  {| client := None;
     benchmarks := PDict {["segments" := PDict
       {["25 34 female" := segment_benchmark;
         "18 24 male" := segment_benchmark;
         "35 44 female" := segment_benchmark]}]} |}.

Definition segment (age gender : string) (clicks : Z) : pyval :=
  PDict {["age" := PStr age; "gender" := PStr gender;
          "spend" := PFloat 20; "impressions" := PInt 1000;
          "clicks" := PInt clicks; "conversions" := PInt 2]}.

Definition ad_with (segments : list pyval) : pydict :=
  {["ad_id" := PStr "12345";
    "breakdowns" := PDict {["age_gender" := PList segments]}]}.

Definition two_segments : pydict :=
  ad_with [segment "25-34" "female" 30; segment "18-24" "male" 20].

Definition three_segments : pydict :=
  ad_with [segment "25-34" "female" 30; segment "18-24" "male" 20;
           segment "35-44" "female" 25].

Lemma insert_desc_length {A} (key : A → num) (x : A) (l : list A) :
  length (insert_desc key x l) = S (length l).
Proof.
  induction l as [|y l IH]; simpl; [done|].
  destruct (num_lt _ _); simpl; by rewrite ?IH.
Qed.

Lemma sorted_desc_length {A} (key : A → num) (l : list A) :
  length (sorted_desc key l) = length l.
Proof.
  unfold sorted_desc. induction l as [|x l IH]; simpl; [done|].
  by rewrite insert_desc_length, IH.
Qed.

Lemma rank_segments_below_three (segment_analysis : list pydict) :
  (length segment_analysis < 3)%nat →
  ∃ best worst st,
    rank_segments segment_analysis = (best, worst, st) ∧
    best = worst ∧
    list_at st best
    = reverse (sorted_desc (num_key "segment_score") segment_analysis).
Proof.
  intros Hlen. unfold rank_segments, new_list, list_at, reverse_in_place.
  cbn [length app lookup list_lookup default from_option]. unfold id.
  rewrite sorted_desc_length, bool_decide_false by lia.
  eexists _, _, _. split; [reflexivity|]. split; [done|]. reflexivity.
Qed.

(** C5, at the failing input: with two segments that score 60 and 30,
    [analyze_segments] returns the worse one first in [best_segments].  The
    lists [best_segments] and [worst_segments] are then one list, which
    [worst_segments.reverse()] turns around; with three segments they are
    slices, and [best_segments] is top-first. *)
Theorem best_segments_with_two (repr_other : pyval → string) :
  (∃ out,
     analyze_segments repr_other segmented_analyzer two_segments = Ok out ∧
     out !! "best_segments"
     = Some (PList [PStr "18 24 male"; PStr "25 34 female"]) ∧
     out !! "worst_segments"
     = Some (PList [PStr "18 24 male"; PStr "25 34 female"])) ∧
  (∃ out,
     analyze_segments repr_other segmented_analyzer three_segments = Ok out ∧
     out !! "best_segments"
     = Some (PList [PStr "25 34 female"; PStr "35 44 female";
                    PStr "18 24 male"]) ∧
     out !! "worst_segments"
     = Some (PList [PStr "18 24 male"; PStr "35 44 female";
                    PStr "25 34 female"])) ∧
  (∀ segment_analysis,
     (length segment_analysis < 3)%nat →
     ∃ best worst st,
       rank_segments segment_analysis = (best, worst, st) ∧
       best = worst ∧
       list_at st best
       = reverse (sorted_desc (num_key "segment_score") segment_analysis)).
Proof.
  split; [|split; [|apply rank_segments_below_three]].
  - eexists. split; [vm_compute; reflexivity|]. by split.
  - eexists. split; [vm_compute; reflexivity|]. by split.
Qed.

End PerformanceAnalyzerFacts.

(** ** Facts about the requests *)

Module RequestFacts.
Import MetaApiClient.

(** *** Doubling a double that is at least 2

    [SFmul] by [2.0] is followed on the representation: the mantissa
    [2^52] of [2.0] shifts the product by 52 bits, which the rounding
    shifts back without losing a bit. *)

Lemma digits2_pos_shift (m : positive) (k : nat) :
  Zpos (digits2_pos (Nat.iter k xO m)) = Zpos (digits2_pos m) + Z.of_nat k.
Proof.
  induction k as [|k IH]; [simpl; lia|].
  rewrite Nat.iter_succ. cbn [digits2_pos]. rewrite Pos2Z.inj_succ, IH. lia.
Qed.

Lemma shr_1_xO (p : positive) :
  shr_1 {| shr_m := Zpos (xO p); shr_r := false; shr_s := false |}
  = {| shr_m := Zpos p; shr_r := false; shr_s := false |}.
Proof. reflexivity. Qed.

Lemma iter_shr_1 (m : positive) (k : nat) :
  Nat.iter k shr_1 {| shr_m := Zpos (Nat.iter k xO m); shr_r := false; shr_s := false |}
  = {| shr_m := Zpos m; shr_r := false; shr_s := false |}.
Proof.
  induction k as [|k IH]; [reflexivity|].
  rewrite Nat.iter_succ_r. rewrite Nat.iter_succ. rewrite shr_1_xO. apply IH.
Qed.

Lemma iter_pos_nat {A} (f : A → A) (p : positive) (x : A) :
  SpecFloat.iter_pos f p x = Nat.iter (Pos.to_nat p) f x.
Proof.
  revert x. induction p as [p IH|p IH|]; intros x; cbn [SpecFloat.iter_pos].
  - rewrite !IH, Pos2Nat.inj_xI.
    replace (S (2 * Pos.to_nat p)) with (Pos.to_nat p + S (Pos.to_nat p))%nat by lia.
    rewrite Nat.iter_add, Nat.iter_succ_r. reflexivity.
  - rewrite !IH, Pos2Nat.inj_xO.
    replace (2 * Pos.to_nat p)%nat with (Pos.to_nat p + Pos.to_nat p)%nat by lia.
    rewrite Nat.iter_add. reflexivity.
  - reflexivity.
Qed.

Lemma mul_pow2_52 (m : positive) :
  (m * 4503599627370496)%positive = Nat.iter 52 xO m.
Proof. rewrite Pos.mul_comm. reflexivity. Qed.

Lemma shr_52 (m : positive) (e : Z) :
  shr {| shr_m := Zpos (Nat.iter 52 xO m); shr_r := false; shr_s := false |} e 52
  = ({| shr_m := Zpos m; shr_r := false; shr_s := false |}, e + 52).
Proof.
  unfold shr. rewrite iter_pos_nat. change (Pos.to_nat 52) with 52%nat.
  rewrite iter_shr_1. reflexivity.
Qed.

Lemma SFmul_two (m : positive) (e : Z) :
  bounded prec emax m e = true ->
  Zpos (digits2_pos m) = 53 ->
  SFmul prec emax (S754_finite false m e) (S754_finite false 4503599627370496 (-51))
  = if e + 1 <=? emax - prec then S754_finite false m (e + 1) else S754_infinity false.
Proof.
  intros Hb Hd.
  unfold bounded, canonical_mantissa in Hb.
  apply andb_prop in Hb as [Hc He]. apply Z.eqb_eq in Hc. apply Z.leb_le in He.
  rewrite Hd in Hc. unfold fexp, SpecFloat.emin, prec, emax in *.
  unfold SFmul. cbn [xorb]. rewrite mul_pow2_52.
  unfold binary_round_aux, shr_fexp, Zdigits2.
  rewrite digits2_pos_shift, Hd.
  unfold fexp, SpecFloat.emin.
  replace (Z.max (53 + Z.of_nat 52 + (e + -51) - 53) (3 - 1024 - 53) - (e + -51)) with 52 by lia.
  cbn [shr_record_of_loc]. rewrite shr_52.
  cbn [shr_m loc_of_shr_record round_nearest_even Zdigits2]. rewrite Hd.
  replace (Z.max (53 + (e + -51 + 52) - 53) (3 - 1024 - 53) - (e + -51 + 52)) with 0 by lia.
  unfold shr. cbn [shr_record_of_loc shr_m].
  replace (e + -51 + 52) with (e + 1) by lia.
  reflexivity.
Qed.

Lemma digits2_pos_bound (m : positive) : Zpos m < 2 ^ Zpos (digits2_pos m).
Proof.
  induction m as [m IH|m IH|]; cbn [digits2_pos]; [| |reflexivity];
    rewrite Pos2Z.inj_succ, Z.pow_succ_r by lia; lia.
Qed.

Lemma two_as_float : Prim2SF 2 = S754_finite false 4503599627370496 (-51).
Proof. reflexivity. Qed.

Lemma num_ge_float_int (x : float) (z : Z) :
  num_ge (NFloat x) (NInt z) = true ↔
  Z_float_compare z x = Some Lt ∨ Z_float_compare z x = Some Eq.
Proof.
  unfold num_ge, num_compare.
  destruct (Z_float_compare z x) as [[]|]; simpl; split;
    intros; try done; try (by left); try (by right); by destruct H.
Qed.

Lemma compare_le (a b : Z) : (a ?= b) = Lt ∨ (a ?= b) = Eq ↔ a <= b.
Proof. destruct (Z.compare_spec a b); split; intros; try lia; try (by left); try (by right); by destruct H0. Qed.

Lemma Some_or {A} (a b c : A) : Some a = Some b ∨ Some a = Some c ↔ a = b ∨ a = c.
Proof. split; intros [?|?]; simplify_eq; auto. Qed.

Lemma float_ge_two (x : float) :
  num_ge (NFloat x) (NInt 2) = true ->
  Prim2SF x = S754_infinity false \/
  exists m e, Prim2SF x = S754_finite false m e /\
    bounded prec emax m e = true /\ Zpos (digits2_pos m) = 53 /\ -52 <= e.
Proof.
  rewrite num_ge_float_int. unfold Z_float_compare.
  pose proof (Prim2SF_valid x) as Hv.
  destruct (Prim2SF x) as [s|s| |s m e].
  - rewrite Some_or, compare_le. lia.
  - destruct s; [|by left]. intros [?|?]; done.
  - intros [?|?]; done.
  - rewrite Some_or. intros H. right. exists m, e.
    unfold valid_binary in Hv.
    pose proof Hv as Hb. unfold bounded, canonical_mantissa in Hb.
    apply andb_prop in Hb as [Hc He]. apply Z.eqb_eq in Hc. apply Z.leb_le in He.
    unfold fexp, SpecFloat.emin, prec, emax in *.
    pose proof (digits2_pos_bound m) as Hm.
    destruct (Z.leb_spec 0 e) as [Hpos|Hneg]; apply compare_le in H.
    + destruct s.
      { pose proof (Z.pow_nonneg 2 e). nia. }
      repeat split; [done|lia|lia].
    + destruct s; [lia|].
      assert (-52 <= e) as Hlow.
      { destruct (Z.le_gt_cases (-52) e) as [?|Hlt]; [done|].
        assert (Zpos (digits2_pos m) <= 53) by lia.
        assert (2 ^ Zpos (digits2_pos m) <= 2 ^ 53) by (apply Z.pow_le_mono_r; lia).
        assert (2 ^ 53 <= 2 ^ (- e)) by (apply Z.pow_le_mono_r; lia).
        lia. }
      repeat split; [done|lia|done].
Qed.

Lemma float_double_ge_two (x : float) :
  num_ge (NFloat x) (NInt 2) = true ->
  num_ge (NFloat (x * 2)) (NInt 2) = true.
Proof.
  intros H. pose proof H as H2.
  apply float_ge_two in H as [Hinf|(m & e & Hx & Hb & Hd & Hlow)];
    rewrite num_ge_float_int in *; unfold Z_float_compare in *;
    rewrite mul_spec, ?Hinf, ?Hx, two_as_float.
  - by left.
  - change SF64mul with (SFmul prec emax). rewrite SFmul_two by done.
    rewrite Hx in H2. rewrite Some_or in H2.
    destruct (e + 1 <=? emax - prec); [|by left].
    rewrite Some_or.
    destruct (Z.leb_spec 0 e) as [Hpos|Hneg]; apply compare_le in H2.
    + destruct (Z.leb_spec 0 (e + 1)); [|lia]. apply compare_le.
      rewrite Z.pow_add_r by lia. change (2 ^ 1) with 2.
      pose proof (Z.pow_pos_nonneg 2 e). nia.
    + replace (- e) with (Z.succ (- (e + 1))) in H2 by lia.
      rewrite Z.pow_succ_r in H2 by lia.
      pose proof (Z.pow_pos_nonneg 2 (- (e + 1))) as Hp.
      destruct (Z.leb_spec 0 (e + 1)) as [Hz|Hn]; apply compare_le.
      * replace (e + 1) with 0 in * by lia. change (2 ^ 0) with 1 in *. lia.
      * lia.
Qed.

(** *** The delay between requests *)

Lemma doubled_wait (w : num) :
  num_ge w (NInt 2) = true →
  ∃ w', num_mul w (NInt 2) = Ok w' ∧ num_ge w' (NInt 2) = true.
Proof.
  destruct w as [z|x]; intros H.
  - exists (NInt (z * 2)). split; [done|].
    unfold num_ge, num_compare in *.
    destruct (Z.compare_spec z 2); try done;
      destruct (Z.compare_spec (z * 2) 2); try done; lia.
  - exists (NFloat (x * 2)). split; [reflexivity|].
    by apply float_double_ge_two.
Qed.

Lemma relaxed_wait_floor (w w' : num) :
  relaxed_wait w = Ok w' → num_ge w' (NInt 2) = true.
Proof.
  unfold relaxed_wait. intros H. inv_bind H.
  injection H as <-.
  destruct (num_gt a (NInt 2)) eqn:Hgt; [|done].
  unfold num_gt in Hgt. unfold num_ge.
  by destruct (num_compare a (NInt 2)) as [[]|].
Qed.

Lemma make_api_request_floor (url : string) (outcomes : list http_outcome)
  (w : num) :
  num_ge w (NInt 2) = true →
  num_ge (make_api_request url outcomes w).1 (NInt 2) = true.
Proof.
  revert w. induction outcomes as [|o outcomes IH]; intros w Hw; [done|].
  destruct o as [status_code text json|]; [|done].
  cbn [make_api_request].
  destruct (rate_limited status_code text).
  { destruct (doubled_wait w Hw) as (w' & -> & Hw'). by apply IH. }
  destruct (status_code =? 200).
  { destruct (relaxed_wait w) as [w'|e] eqn:Hr; [|done].
    by apply relaxed_wait_floor in Hr. }
  by destruct (_ && _).
Qed.

(** The delay never falls below 2 seconds: whatever the calls served by a
    client and whatever the outcomes of their requests (rate-limit
    responses, successes, failures, in any order), the delay that the client
    holds afterwards, an [int] or a [float], compares [>= 2]. *)
Theorem delay_never_below_two (calls : list (string * list http_outcome)) :
  num_ge (serve calls initial_wait) (NInt 2) = true.
Proof.
  assert (∀ w, num_ge w (NInt 2) = true → num_ge (serve calls w) (NInt 2) = true)
    as H; [|by apply H].
  induction calls as [|[url outcomes] calls IH]; intros w Hw; [done|].
  cbn [serve]. apply IH. by apply make_api_request_floor.
Qed.



End RequestFacts.

(** ** Facts about the pagination *)

Module PaginationFacts.
Import MetaApiClient.

(** A follow-up page that is served: status 200 and a body whose content
    is [c], the items of the page and the link to the next one. *)
Definition served (o : http_outcome) (c : list pyval * pyval) : Prop :=
  ∃ text response,
    o = Response 200 text (Ok response) ∧ page_content response = Ok c.

Definition has_next (c : list pyval * pyval) : Prop := truthy c.2 = true.

Lemma follow_pages_step url params o c pages all_data next_page b :
  breakdown_log_test url params = Ok b →
  truthy next_page = true →
  served o c →
  follow_pages url params (o :: pages) next_page all_data
  = follow_pages url params pages c.2 (app all_data c.1).
Proof.
  intros Hlog Hnext (text & response & -> & Hc).
  cbn [follow_pages]. rewrite Hnext, Hlog. cbn [negb Z.eqb Pos.eqb].
  cbn [mbind result_bind]. rewrite Hc. by destruct c.
Qed.

Lemma follow_pages_served url params os cs pages all_data next_page b :
  breakdown_log_test url params = Ok b →
  truthy next_page = true →
  Forall2 served os cs →
  Forall has_next cs →
  follow_pages url params (app os pages) next_page all_data
  = follow_pages url params pages (default next_page (last (cs.*2)))
      (app all_data (concat (cs.*1))).
Proof.
  intros Hlog Hnext Hs. revert next_page all_data Hnext.
  induction Hs as [|o c os cs Ho _ IH]; intros next_page all_data Hnext Hn.
  - cbn. by rewrite app_nil_r.
  - apply Forall_cons in Hn as [Hc Hn].
    cbn [app]. erewrite follow_pages_step by done.
    rewrite IH by done. cbn [fmap list_fmap concat].
    rewrite app_assoc. f_equal.
    rewrite last_cons. by destruct (last _).
Qed.

(** A failed follow-up page truncates the result without an error: when
    the first page and [n >= 0] follow-up pages are served, each with a link
    to a next page, and the following request answers with a status other
    than 200, [_handle_pagination] returns (it does not raise) the items of
    the pages served so far, in order, and the outcomes listed after the
    failed page are not requested. *)
Theorem failed_page_truncates url params first os cs status_code text json
  rest w0 w response c0 b :
  make_api_request url first w0 = (w, Some (Ok response)) →
  page_content response = Ok c0 →
  breakdown_log_test url params = Ok b →
  Forall2 served os cs →
  Forall has_next (c0 :: cs) →
  status_code ≠ 200 →
  let p := handle_pagination url params first
             (app os (Response status_code text json :: rest)) w0 in
  returned p = Some (Ok (concat ((c0 :: cs).*1))) ∧ wait_after p = w.
Proof.
  intros Hfirst Hc0 Hlog Hs Hn Hstatus. cbv zeta.
  unfold handle_pagination. rewrite Hfirst, Hc0. destruct c0 as [items0 next0].
  apply Forall_cons in Hn as [Hn0 Hn]. unfold has_next in Hn0. cbn in Hn0.
  cbn [returned wait_after]. split; [|done].
  erewrite follow_pages_served by done.
  assert (truthy (default next0 (last (cs.*2))) = true) as Hlast.
  { destruct (last (cs.*2)) as [n|] eqn:Hl; [|done].
    apply last_Some_elem_of in Hl.
    apply list_elem_of_fmap in Hl as (c & -> & Hc).
    by eapply Forall_forall in Hn. }
  cbn [follow_pages]. rewrite Hlast, Hlog. cbn [negb].
  by apply Z.eqb_neq in Hstatus as ->.
Qed.

(** Complete pagination: when the first page and the follow-up pages are
    served, every page but the last links to a next page and the last one
    does not, [_handle_pagination] returns the items of all the pages, in
    the order of the pages; the delay is the one left by the first
    request. *)
Theorem all_pages_collected url params first os cs o c
  rest w0 w response c0 b :
  make_api_request url first w0 = (w, Some (Ok response)) →
  page_content response = Ok c0 →
  breakdown_log_test url params = Ok b →
  Forall2 served os cs →
  served o c →
  Forall has_next (c0 :: cs) →
  truthy c.2 = false →
  let p := handle_pagination url params first (app os (o :: rest)) w0 in
  returned p = Some (Ok (concat ((c0 :: app cs [c]).*1))) ∧ wait_after p = w.
Proof.
  intros Hfirst Hc0 Hlog Hs Ho Hn Hend. cbv zeta.
  unfold handle_pagination. rewrite Hfirst, Hc0. destruct c0 as [items0 next0].
  apply Forall_cons in Hn as [Hn0 Hn]. unfold has_next in Hn0. cbn in Hn0.
  cbn [returned wait_after]. split; [|done].
  erewrite follow_pages_served by done.
  assert (truthy (default next0 (last (cs.*2))) = true) as Hlast.
  { destruct (last (cs.*2)) as [n|] eqn:Hl; [|done].
    apply last_Some_elem_of in Hl.
    apply list_elem_of_fmap in Hl as (c' & -> & Hc).
    by eapply Forall_forall in Hn. }
  erewrite follow_pages_step by done.
  destruct rest; cbn [follow_pages]; rewrite Hend; cbn [negb];
    by rewrite fmap_cons, fmap_app, !concat_cons, concat_app, app_assoc;
       cbn; rewrite app_nil_r.
Qed.

(** A page of the ads endpoint with its items and the link that follows. *)
Definition page_of (items : list pyval) (next_page : pyval) : pyval :=
  PDict {["data" := PList items;
          "paging" := PDict {["next" := next_page]}]}.

Definition ads_url : string := "https://graph.facebook.com/v23.0/act_1/ads".

Lemma failed_page_truncates_witness :
  let p := handle_pagination ads_url ∅
             [Response 200 "" (Ok (page_of [PStr "a1"] (PStr "page2")))]
             [Response 200 "" (Ok (page_of [PStr "a2"; PStr "a3"] (PStr "page3")));
              Response 500 "Internal error" (Raise ValueError);
              Response 200 "" (Ok (page_of [PStr "a4"] PNone))]
             initial_wait in
  returned p = Some (Ok [PStr "a1"; PStr "a2"; PStr "a3"]) ∧
  wait_after p = NInt 2.
Proof.
  apply (failed_page_truncates ads_url ∅
           [Response 200 "" (Ok (page_of [PStr "a1"] (PStr "page2")))]
           [Response 200 "" (Ok (page_of [PStr "a2"; PStr "a3"] (PStr "page3")))]
           [([PStr "a2"; PStr "a3"], PStr "page3")]
           500 "Internal error" (Raise ValueError)
           [Response 200 "" (Ok (page_of [PStr "a4"] PNone))]
           initial_wait (NInt 2) (page_of [PStr "a1"] (PStr "page2"))
           ([PStr "a1"], PStr "page2") false).
  - reflexivity.
  - reflexivity.
  - reflexivity.
  - repeat constructor. eexists _, _. split; reflexivity.
  - repeat constructor.
  - lia.
Defined.

Lemma all_pages_collected_witness :
  let p := handle_pagination ads_url ∅
             [Response 200 "" (Ok (page_of [PStr "a1"] (PStr "page2")))]
             [Response 200 "" (Ok (page_of [PStr "a2"; PStr "a3"] (PStr "page3")));
              Response 200 "" (Ok (page_of [PStr "a4"] PNone))]
             initial_wait in
  returned p = Some (Ok [PStr "a1"; PStr "a2"; PStr "a3"; PStr "a4"]) ∧
  wait_after p = NInt 2.
Proof.
  apply (all_pages_collected ads_url ∅
           [Response 200 "" (Ok (page_of [PStr "a1"] (PStr "page2")))]
           [Response 200 "" (Ok (page_of [PStr "a2"; PStr "a3"] (PStr "page3")))]
           [([PStr "a2"; PStr "a3"], PStr "page3")]
           (Response 200 "" (Ok (page_of [PStr "a4"] PNone)))
           ([PStr "a4"], PNone) []
           initial_wait (NInt 2) (page_of [PStr "a1"] (PStr "page2"))
           ([PStr "a1"], PStr "page2") false).
  - reflexivity.
  - reflexivity.
  - reflexivity.
  - repeat constructor. eexists _, _. split; reflexivity.
  - eexists _, _. split; reflexivity.
  - repeat constructor.
  - reflexivity.
Defined.

End PaginationFacts.

(** ** Facts about the other checks of the validator *)

Module DataValidatorChecksFacts.
Import MetaApiClient DataValidator PerformanceAnalyzer DataValidatorChecks.

(** *** The required fields *)

Lemma missing_top_level_nil (ad_data : pydict) (fields : list string) :
  missing_top_level ad_data fields = [] ↔
  ∀ f, f ∈ fields → ∃ v, ad_data !! f = Some v ∧ truthy v = true.
Proof.
  induction fields as [|field fields IH]; cbn [missing_top_level].
  - split; [|done]. intros _ f Hf. by apply elem_of_nil in Hf.
  - unfold field_missing at 1. split.
    + destruct (ad_data !! field) as [v|] eqn:Hv; [|done].
      destruct (truthy v) eqn:Ht; [|done]. cbn [negb]. intros H f Hf.
      apply elem_of_cons in Hf as [->|Hf]; [eauto|by apply IH].
    + intros H. destruct (H field) as (v & -> & ->); [by left|].
      cbn [negb]. apply IH. intros f Hf. apply H. by right.
Qed.

Lemma missing_metrics_nil (metrics : pyval) (fields : list string) :
  missing_metrics metrics fields = Ok [] ↔
  ∀ f, f ∈ fields → py_contains metrics f = Ok true.
Proof.
  induction fields as [|field fields IH]; cbn [missing_metrics].
  - split; [|done]. intros _ f Hf. by apply elem_of_nil in Hf.
  - split.
    + intros H. inv_binds H. destruct a; [|done]. injection H as ->.
      intros f Hf. apply elem_of_cons in Hf as [->|Hf]; [done|by apply IH].
    + intros H. rewrite (H field) by (by left). cbn [mbind result_bind].
      destruct IH as [_ ->]; [done|]. intros f Hf. apply H. by right.
Qed.

Lemma missing_breakdowns_nil (ad_data : pydict) :
  missing_breakdowns ad_data = Ok [] ↔
  ∃ breakdowns age_gender,
    ad_data !! "breakdowns" = Some breakdowns ∧
    py_contains breakdowns "age_gender" = Ok true ∧
    py_subscript breakdowns "age_gender" = Ok age_gender ∧
    truthy age_gender = true.
Proof.
  unfold missing_breakdowns. split.
  - destruct (ad_data !! "breakdowns") as [breakdowns|]; [|done].
    intros H. inv_bind H. destruct a; [|done]. inv_bind H.
    destruct (truthy a) eqn:Ht; [|done]. by exists breakdowns, a.
  - intros (breakdowns & age_gender & -> & -> & Hs & Ht).
    cbn [mbind result_bind]. rewrite Hs. cbn [mbind result_bind]. by rewrite Ht.
Qed.

(** [_check_required_fields] reports nothing exactly when the record is
    complete: the five top-level fields are present with truthy values, the
    value of ['metrics'] contains the seven required metrics, and
    ['breakdowns'] is present and holds a truthy ['age_gender']. *)
Theorem required_fields_complete (ad_data : pydict) :
  check_required_fields ad_data = Ok [] ↔
  (∀ f, f ∈ top_level_fields → ∃ v, ad_data !! f = Some v ∧ truthy v = true) ∧
  (∃ metrics, ad_data !! "metrics" = Some metrics ∧
     ∀ f, f ∈ metric_fields → py_contains metrics f = Ok true) ∧
  (∃ breakdowns age_gender,
     ad_data !! "breakdowns" = Some breakdowns ∧
     py_contains breakdowns "age_gender" = Ok true ∧
     py_subscript breakdowns "age_gender" = Ok age_gender ∧
     truthy age_gender = true).
Proof.
  unfold check_required_fields. cbv zeta.
  rewrite <- missing_top_level_nil, <- missing_breakdowns_nil. split.
  - intros H. inv_binds H. injection H as H.
    apply app_eq_nil in H as [Htop H]. apply app_eq_nil in H as [-> ->].
    change (missing_top_level ad_data top_level_fields = []) in Htop.
    split; [done|]. split; [|done].
    destruct (proj1 (missing_top_level_nil _ _) Htop "metrics")
      as (metrics & Hm & _); [set_solver|].
    rewrite Hm in Ha. exists metrics. split; [done|].
    by apply missing_metrics_nil.
  - intros (Htop & (metrics & Hm & Hf) & ->). rewrite Hm.
    apply missing_metrics_nil in Hf as ->. cbn [mbind result_bind].
    by rewrite Htop.
Qed.

(** *** The timeframe *)

Lemma check_timeframe_spec today days_threshold (ad_data : pydict) :
  check_timeframe today days_threshold ad_data = true ↔
  ∃ created, created_date (PDict ad_data) = Ok (Some created) ∧
             days_threshold ≤ day today - day created.
Proof.
  unfold check_timeframe, created_date. cbn [py_get mbind result_bind].
  unfold dget.
  destruct (ad_data !! "created_time") as [v|]; cbn [default id].
  2:{ split; [done|]. by intros (c & [=] & _). }
  destruct v as [| | | |s| |];
    try (split; [done|]; intros (c & Hc & _); by destruct (negb _)).
  cbn [truthy]. destruct (String.eqb s "") eqn:Hs; cbn [negb].
  { apply String.eqb_eq in Hs as ->. split; [done|]. by intros (c & [=] & _). }
  destruct (if contains_T s then _ else _) as [d|e]; cbn [mbind result_bind].
  - rewrite Z.leb_le. split.
    + intros H. by eexists.
    + by intros (c & [= <-] & H).
  - split; [done|]. by intros (c & [=] & _).
Qed.

(** An ad that is old enough stays old enough: when [_check_timeframe]
    accepts an ad at some reading of the clock with some threshold, it
    accepts it at every later day and with every smaller threshold. *)
Theorem timeframe_monotone today today' days_threshold days_threshold'
  (ad_data : pydict) :
  check_timeframe today days_threshold ad_data = true →
  day today ≤ day today' →
  days_threshold' ≤ days_threshold →
  check_timeframe today' days_threshold' ad_data = true.
Proof.
  rewrite !check_timeframe_spec. intros (c & Hc & H) Hd Ht.
  exists c. split; [done|lia].
Qed.

Definition week_old_ad : pydict :=
  {["ad_id" := PStr "1"; "created_time" := PStr "2026-10-27T09:30:00+0000"]}.

Lemma timeframe_monotone_witness :
  check_timeframe {| day := 739930; micros := 0 |} 5 week_old_ad = true.
Proof.
  apply (timeframe_monotone {| day := 739923; micros := 1000 |}
           {| day := 739930; micros := 0 |} 7 5 week_old_ad);
    [reflexivity|simpl; lia|lia].
Defined.

(** The discovery of the ads and the validator agree on the age of an ad:
    for a clock reading [today] and [days] days, the test of
    [find_eligible_ads], [created_date <= today - timedelta(days)], and
    [_check_timeframe], [(today - created_time).days >= days], accept the
    same ads; an ad that the discovery skips (no or an empty
    [created_time]) or on whose [created_time] it raises is rejected by
    [_check_timeframe]. *)
Theorem timeframe_agrees_with_discovery today days days_ago
  (ad_data : pydict) :
  0 ≤ micros today →
  minus_days today days = Ok days_ago →
  match created_date (PDict ad_data) with
  | Ok (Some created) =>
      check_timeframe today days ad_data = datetime_le created days_ago
  | _ => check_timeframe today days ad_data = false
  end.
Proof.
  intros Hm Hd. unfold minus_days in Hd.
  destruct (_ && _); [|done]. injection Hd as <-.
  pose proof (check_timeframe_spec today days ad_data) as Hspec.
  destruct (created_date (PDict ad_data)) as [[created|]|e] eqn:Hc.
  - assert (micros created = 0) as Hzero.
    { unfold created_date in Hc. inv_bind Hc.
      destruct (negb (truthy a)); [done|].
      destruct a; try done. inv_bind Hc. by injection Hc as <-. }
    unfold datetime_le. cbn [day micros]. rewrite Hzero.
    destruct (check_timeframe today days ad_data).
    + destruct Hspec as [(c & [= <-] & H) _]; [done|].
      symmetry. apply orb_true_iff.
      destruct (Z.eq_dec (day created) (day today - days)) as [Heq|Hne].
      * right. apply andb_true_iff. split; [by apply Z.eqb_eq|by apply Z.leb_le].
      * left. apply Z.ltb_lt. lia.
    + symmetry. apply not_true_is_false. intros H. apply orb_true_iff in H.
      enough (false = true) by done. apply Hspec. exists created.
      split; [done|]. destruct H as [H|H].
      * apply Z.ltb_lt in H. lia.
      * apply andb_true_iff in H as [H _]. apply Z.eqb_eq in H. lia.
  - apply not_true_is_false. intros H. apply Hspec in H as (c & [=] & _).
  - apply not_true_is_false. intros H. apply Hspec in H as (c & [=] & _).
Qed.

Lemma timeframe_agrees_with_discovery_witness :
  check_timeframe {| day := 739923; micros := 1000 |} 7 week_old_ad
  = datetime_le {| day := 739916; micros := 0 |}
      {| day := 739916; micros := 1000 |}.
Proof.
  apply (timeframe_agrees_with_discovery {| day := 739923; micros := 1000 |} 7
           {| day := 739916; micros := 1000 |} week_old_ad);
    [simpl; lia|reflexivity].
Defined.

(** *** The verdict *)

Section Verdict.

Variable repr_other : pyval → string.
Variable spend_threshold : num.
Variable days_threshold : Z.

Lemma validate_ad_data_inv today (ad_data : pydict) is_valid issues :
  validate_ad_data repr_other spend_threshold days_threshold today ad_data
  = Ok (is_valid, issues) →
  ∃ required spend_ok spend_issue timeframe_issue anomalies,
    check_required_fields ad_data = Ok required ∧
    check_spend_threshold spend_threshold ad_data = Ok spend_ok ∧
    check_anomalies repr_other ad_data = Ok anomalies ∧
    (spend_ok = true → spend_issue = []) ∧
    (spend_ok = false → ∃ issue, spend_issue = [issue]) ∧
    (check_timeframe today days_threshold ad_data = true → timeframe_issue = []) ∧
    (check_timeframe today days_threshold ad_data = false →
     ∃ issue, timeframe_issue = [issue]) ∧
    is_valid = match required with [] => true | _ => false end
               && spend_ok
               && check_timeframe today days_threshold ad_data ∧
    issues = app required (app spend_issue (app timeframe_issue anomalies)).
Proof.
  unfold validate_ad_data. intros H. inv_binds H. injection H as <- <-.
  exists a, a0, a1,
    (if check_timeframe today days_threshold ad_data then []
     else [("Insufficient data: Less than " ++ decimal_of_Z days_threshold
            ++ " days of data")%string]), a2.
  do 3 (split; [done|]).
  split; [intros ->; by injection Ha1 as <-|].
  split.
  { intros ->. inv_bind Ha1. injection Ha1 as <-. eauto. }
  split; [by intros ->|].
  split; [intros ->; eauto|done].
Qed.

(** The verdict of [validate_ad_data]: an ad is valid exactly when no
    required field is missing, the spend reaches the threshold and the ad
    is old enough; anomalies never make an ad invalid, and the issues of a
    valid ad are its anomalies only; an invalid ad always comes with at
    least one issue, and its first issue is not an anomaly. *)
Theorem validate_ad_data_verdict today (ad_data : pydict) is_valid issues :
  validate_ad_data repr_other spend_threshold days_threshold today ad_data
  = Ok (is_valid, issues) →
  ∃ anomalies,
    check_anomalies repr_other ad_data = Ok anomalies ∧
    (is_valid = true ↔
       check_required_fields ad_data = Ok [] ∧
       check_spend_threshold spend_threshold ad_data = Ok true ∧
       check_timeframe today days_threshold ad_data = true) ∧
    (is_valid = true → issues = anomalies) ∧
    (is_valid = false →
       ∃ issue others, issues = app (issue :: others) anomalies).
Proof.
  intros H.
  apply validate_ad_data_inv in H
    as (required & spend_ok & spend_issue & timeframe_issue & anomalies
        & Hr & Hs & Ha & Hs1 & Hs2 & Ht1 & Ht2 & -> & ->).
  exists anomalies. split; [done|].
  destruct required as [|r required].
  - destruct spend_ok.
    + rewrite Hs1 by done.
      destruct (check_timeframe today days_threshold ad_data) eqn:Ht.
      * rewrite Ht1 by done. repeat split; done.
      * destruct Ht2 as [issue ->]; [done|].
        split; [split; [done|by intros (_ & _ & ?)]|].
        split; [done|]. intros _. by exists issue, [].
    + destruct Hs2 as [issue ->]; [done|].
      split; [split; [done|intros (_ & ? & _); congruence]|].
      split; [done|]. intros _. by exists issue, timeframe_issue.
  - split; [split; [done|intros (? & _ & _); congruence]|].
    split; [done|]. intros _.
    exists r, (app required (app spend_issue timeframe_issue)).
    cbn [app]. f_equal. by rewrite <- !app_assoc.
Qed.

(** [validate_ad] always explains an invalid verdict: its result holds
    ['valid'], and it holds a ['reason'], the first issue, exactly when the
    ad is invalid. *)
Theorem validate_ad_reason today (ad_data result : pydict) :
  validate_ad repr_other spend_threshold days_threshold today ad_data
  = Ok result →
  ∃ is_valid issues,
    validate_ad_data repr_other spend_threshold days_threshold today ad_data
    = Ok (is_valid, issues) ∧
    result !! "valid" = Some (PBool is_valid) ∧
    (is_valid = true → result !! "reason" = None) ∧
    (is_valid = false →
       ∃ issue, head issues = Some issue ∧
                result !! "reason" = Some (PStr issue)).
Proof.
  unfold validate_ad. intros H. inv_bind H. destruct a as [is_valid issues].
  injection H as <-. exists is_valid, issues. split; [done|].
  destruct is_valid.
  - repeat split; done.
  - apply validate_ad_data_inv in Ha
      as (required & spend_ok & spend_issue & timeframe_issue & anomalies
          & _ & _ & _ & Hs1 & Hs2 & _ & Ht2 & Hv & ->).
    assert (∃ issue others,
              app required (app spend_issue (app timeframe_issue anomalies))
              = issue :: others) as (issue & others & ->).
    { destruct required as [|r required]; [|by eauto].
      destruct spend_ok; [|destruct Hs2 as [issue ->]; [done|by eauto]].
      rewrite Hs1 by done.
      destruct (check_timeframe today days_threshold ad_data); [done|].
      destruct Ht2 as [issue ->]; [done|by eauto]. }
    split; [done|]. split; [done|]. intros _. by exists issue.
Qed.

(** *** Several ads *)

(** The verdict on one ad, when [validate_ad_data] returns. *)
Definition accepted (ad : datetime * pydict) : bool :=
  match validate_ad_data repr_other spend_threshold days_threshold ad.1 ad.2 with
  | Ok (is_valid, _) => is_valid
  | Raise _ => false
  end.

Fixpoint accepted_ads (ads_data : list (datetime * pydict)) : list pydict :=
  match ads_data with
  | [] => []
  | ad :: rest =>
      if accepted ad then ad.2 :: accepted_ads rest else accepted_ads rest
  end.

Fixpoint rejected_ids (ads_data : list (datetime * pydict)) : list pyval :=
  match ads_data with
  | [] => []
  | ad :: rest =>
      if accepted ad then rejected_ids rest
      else dget ad.2 "ad_id" (PStr "unknown") :: rejected_ids rest
  end.

Lemma validate_each_inv ads_data valid_ads invalid_ads all_issues r :
  validate_each repr_other spend_threshold days_threshold ads_data
    valid_ads invalid_ads all_issues = Ok r →
  r.1.1 = app valid_ads (accepted_ads ads_data) ∧
  r.1.2 = app invalid_ads (rejected_ids ads_data).
Proof.
  revert valid_ads invalid_ads all_issues.
  induction ads_data as [|[today ad_data] ads_data IH];
    intros valid_ads invalid_ads all_issues H.
  - injection H as <-. by rewrite !app_nil_r.
  - cbn [validate_each] in H. inv_bind H. destruct a as [is_valid issues].
    cbn [accepted_ads rejected_ids]. unfold accepted. cbn [fst snd].
    rewrite Ha. destruct is_valid.
    + apply IH in H as [-> ->]. by rewrite <- app_assoc.
    + destruct (hashable _); [|done].
      apply IH in H as [-> ->]. by rewrite <- app_assoc.
Qed.

Lemma accepted_rejected_length ads_data :
  (length (accepted_ads ads_data) + length (rejected_ids ads_data))%nat
  = length ads_data.
Proof.
  induction ads_data as [|ad ads_data IH]; [done|].
  cbn [accepted_ads rejected_ids]. destruct (accepted ad); simpl; lia.
Qed.

(** [validate_multiple_ads] sorts every ad into exactly one of its lists:
    when it returns, the valid ads are the ads that [validate_ad_data]
    accepts and the invalid ids are the ids of the others, both in the order
    of the input, and [valid_count + invalid_count = total_ads], the number
    of ads given. *)
Theorem validate_multiple_ads_partition ads_data v :
  validate_multiple_ads repr_other spend_threshold days_threshold ads_data
  = Ok v →
  valid_ads v = accepted_ads ads_data ∧
  invalid_ads v = rejected_ids ads_data ∧
  total_ads v = length ads_data ∧
  valid_count v = length (valid_ads v) ∧
  invalid_count v = length (invalid_ads v) ∧
  (valid_count v + invalid_count v)%nat = total_ads v.
Proof.
  unfold validate_multiple_ads. intros H. inv_bind H.
  destruct a as [[valid invalid] all_issues]. injection H as <-.
  apply validate_each_inv in Ha as [Hv Hi]. cbn in Hv, Hi. subst.
  cbn [valid_ads invalid_ads total_ads valid_count invalid_count].
  do 5 (split; [done|]). apply accepted_rejected_length.
Qed.

End Verdict.

(** The sample ad of the module's own example run, created on 2026-10-27,
    and a clock that reads 2026-11-04. *)
Definition sample_repr (v : pyval) : string :=
  match v with
  | PFloat x => if PrimFloat.eqb x 75.5 then "75.5" else "250.0"
  | _ => ""
  end.

Definition sample_ad : pydict :=
  {["ad_id" := PStr "12345"; "ad_name" := PStr "Test Ad";
    "campaign_name" := PStr "Test Campaign";
    "created_time" := PStr "2026-10-27";
    "metrics" := PDict {["spend" := PFloat 75.5; "impressions" := PInt 15000;
                         "clicks" := PInt 225; "conversions" := PInt 12;
                         "ctr" := PFloat 1.5; "cpm" := PFloat 5.03;
                         "cpa" := PFloat 6.29; "roas" := PFloat 4.2]};
    "breakdowns" := PDict {["age_gender" := PList [PDict
       {["age" := PStr "25-34"; "gender" := PStr "female";
         "spend" := PFloat 25; "conversions" := PInt 6]}]]}]}.

Definition sample_clock : datetime := {| day := 739924; micros := 0 |}.

Lemma validate_ad_data_verdict_witness :
  ∃ anomalies,
    check_anomalies sample_repr sample_ad = Ok anomalies ∧
    (false = true ↔
       check_required_fields sample_ad = Ok [] ∧
       check_spend_threshold (NFloat 250) sample_ad = Ok true ∧
       check_timeframe sample_clock 7 sample_ad = true) ∧
    (false = true → ["Spend below threshold: 75.5 < 250.0"] = anomalies) ∧
    (false = false →
       ∃ issue others,
         ["Spend below threshold: 75.5 < 250.0"]
         = app (issue :: others) anomalies).
Proof.
  apply (validate_ad_data_verdict sample_repr (NFloat 250) 7 sample_clock
           sample_ad false ["Spend below threshold: 75.5 < 250.0"]).
  vm_compute. reflexivity.
Defined.

Lemma validate_ad_reason_witness :
  ∃ is_valid issues,
    validate_ad_data sample_repr (NFloat 250) 7 sample_clock sample_ad
    = Ok (is_valid, issues) ∧
    ({["valid" := PBool false;
       "reason" := PStr "Spend below threshold: 75.5 < 250.0"]} : pydict)
      !! "valid" = Some (PBool is_valid) ∧
    (is_valid = true →
     ({["valid" := PBool false;
        "reason" := PStr "Spend below threshold: 75.5 < 250.0"]} : pydict)
       !! "reason" = None) ∧
    (is_valid = false →
       ∃ issue, head issues = Some issue ∧
         ({["valid" := PBool false;
            "reason" := PStr "Spend below threshold: 75.5 < 250.0"]} : pydict)
           !! "reason" = Some (PStr issue)).
Proof.
  apply (validate_ad_reason sample_repr (NFloat 250) 7 sample_clock sample_ad
           {["valid" := PBool false;
             "reason" := PStr "Spend below threshold: 75.5 < 250.0"]}).
  vm_compute. reflexivity.
Defined.

Definition sample_validation : validation :=
  {| valid_ads :=
       [<["ad_id" := PStr "2"]>
          (<["metrics" := PDict {["spend" := PInt 300; "impressions" := PInt 1;
                                  "clicks" := PInt 0; "conversions" := PInt 0;
                                  "ctr" := PInt 0; "cpm" := PInt 0;
                                  "cpa" := PInt 0]}]> sample_ad)];
     invalid_ads := [PStr "12345"; PStr "unknown"];
     issues :=
       [(PStr "12345", ["Spend below threshold: 75.5 < 250.0"]);
        (PStr "unknown",
         ["Missing required field: ad_id"; "Missing required field: ad_name";
          "Missing required field: campaign_name";
          "Missing required field: created_time";
          "Missing required field: metrics";
          "Missing required section: breakdowns";
          "Spend below threshold: 0 < 250.0";
          "Insufficient data: Less than 7 days of data"])];
     total_ads := 3; valid_count := 1; invalid_count := 2 |}.

Definition sample_ads : list (datetime * pydict) :=
  [(sample_clock, sample_ad);
   (sample_clock,
    <["ad_id" := PStr "2"]>
      (<["metrics" := PDict {["spend" := PInt 300; "impressions" := PInt 1;
                              "clicks" := PInt 0; "conversions" := PInt 0;
                              "ctr" := PInt 0; "cpm" := PInt 0;
                              "cpa" := PInt 0]}]> sample_ad));
   (sample_clock, ∅)].

Lemma validate_multiple_ads_partition_witness :
  valid_ads sample_validation
  = accepted_ads sample_repr (NFloat 250) 7 sample_ads ∧
  invalid_ads sample_validation
  = rejected_ids sample_repr (NFloat 250) 7 sample_ads ∧
  total_ads sample_validation = length sample_ads ∧
  valid_count sample_validation = length (valid_ads sample_validation) ∧
  invalid_count sample_validation = length (invalid_ads sample_validation) ∧
  (valid_count sample_validation + invalid_count sample_validation)%nat
  = total_ads sample_validation.
Proof.
  apply (validate_multiple_ads_partition sample_repr (NFloat 250) 7
           sample_ads sample_validation).
  vm_compute. reflexivity.
Defined.

(** *** The metrics that the client extracts *)

Lemma of_num_numeric (r : result num) (v : pyval) :
  of_num <$> r = Ok v → is_int_or_float v = true.
Proof. destruct r as [[]|]; intros [= <-]; done. Qed.

Lemma scaled_numeric (r : result num) (c : num) (v : pyval) :
  (x ← r; of_num <$> num_mul x c) = Ok v → is_int_or_float v = true.
Proof. intros H. inv_bind H. by apply of_num_numeric in H. Qed.

Definition validated_metrics : list string := app metric_fields ["roas"].

Lemma metrics_of_insight_numeric (metrics_data m : pydict) (f : string) :
  metrics_of_insight metrics_data = Ok m →
  f ∈ validated_metrics →
  ∃ v, m !! f = Some v ∧ is_int_or_float v = true.
Proof.
  intros H Hf. unfold metrics_of_insight in H. inv_binds H.
  map_simpl_in H.
  assert (is_int_or_float a5 = true) as Hcpm.
  { destruct (0 <? a0); [by apply scaled_numeric in Ha5|by injection Ha5 as <-]. }
  assert (is_int_or_float a6 = true) as Hcpa.
  { destruct (0 <? a4); [by apply of_num_numeric in Ha6|by injection Ha6 as <-]. }
  assert (is_int_or_float a9 = true) as Hroas.
  { destruct (truthy a8); [|by injection Ha9 as <-].
    inv_binds Ha9. destruct (_ && _); [by apply of_num_numeric in Ha9|].
    by injection Ha9 as <-. }
  assert (∃ rest : pydict → pydict,
            m = rest (<["roas" := a9]> (<["cpa" := a6]> (<["cpm" := a5]>
                  (<["conversions" := PInt a4]>
                    (<["outbound_clicks" := PInt a3]>
                      (<["ctr" := PFloat a2]> (<["clicks" := PInt a1]>
                        (<["impressions" := PInt a0]>
                          (<["spend" := PFloat a]> ∅))))))))) ∧
            ∀ (d : pydict) k, k ∈ validated_metrics → rest d !! k = d !! k)
    as (rest & -> & Hrest).
  { destruct (0 <? a0).
    - inv_binds H. injection H as <-.
      eexists (λ d, <["viewthrough_rate" := _]> (<["hook_rate" := _]>
                 (<["video_p100_watched" := _]> (<["video_3_sec_views" := _]>
                   (<["ctr_destination" := _]> d))))).
      split; [reflexivity|]. intros d k Hk. unfold validated_metrics in Hk.
      cbn in Hk. repeat (apply elem_of_cons in Hk as [->|Hk]; [by map_simpl|]).
      by apply elem_of_nil in Hk.
    - injection H as <-.
      eexists (λ d, <["video_p100_watched" := _]> (<["video_3_sec_views" := _]>
                 (<["ctr_destination" := _]> d))).
      split; [reflexivity|]. intros d k Hk. unfold validated_metrics in Hk.
      cbn in Hk. repeat (apply elem_of_cons in Hk as [->|Hk]; [by map_simpl|]).
      by apply elem_of_nil in Hk. }
  rewrite Hrest by done. unfold validated_metrics in Hf. cbn in Hf.
  repeat (apply elem_of_cons in Hf as [->|Hf]; [map_simpl; by eauto|]).
  by apply elem_of_nil in Hf.
Qed.

Lemma get_ad_metrics_numeric (response m : pydict) (f : string) :
  get_ad_metrics response = Ok m →
  f ∈ validated_metrics →
  ∃ v, m !! f = Some v ∧ is_int_or_float v = true.
Proof.
  unfold get_ad_metrics. intros H Hf.
  destruct (truthy _).
  - destruct (dget response "data" (PList [])) as [| | | | |[|[] ?]|]; try done.
    by eapply metrics_of_insight_numeric.
  - injection H as <-. unfold validated_metrics in Hf. cbn in Hf.
    repeat (apply elem_of_cons in Hf as [->|Hf]; [by eexists|]).
    by apply elem_of_nil in Hf.
Qed.

Lemma numeric_the_num (v : pyval) :
  is_int_or_float v = true → ∃ n, the_num v = Ok n.
Proof. destruct v; try done; intros _; by eexists. Qed.

Lemma numeric_compared (cmp : pyval → num → result bool) (v : pyval) (c : num) :
  (cmp = py_gt ∨ cmp = py_ge ∨ cmp = py_lt) →
  is_int_or_float v = true → ∃ b, cmp v c = Ok b.
Proof.
  intros Hc Hv. destruct (numeric_the_num v Hv) as [n Hn].
  destruct Hc as [->|[->| ->]]; unfold py_gt, py_ge, py_lt; rewrite Hn;
    by eexists.
Qed.

Lemma negative_values_numeric repr_other (m : pydict) (fields : list string) :
  (∀ f, f ∈ fields → ∃ v, m !! f = Some v ∧ is_int_or_float v = true) →
  ∃ l, negative_values repr_other m fields = Ok l.
Proof.
  induction fields as [|field fields IH]; intros H; [by eexists|].
  destruct IH as [l Hl]; [intros f Hf; apply H; by right|].
  destruct (H field) as (v & Hv & Hn); [by left|].
  destruct (numeric_compared py_lt v (NInt 0)) as [b Hb]; [by auto|done|].
  cbn [negative_values]. rewrite Hv, Hb. cbn [mbind result_bind]. rewrite Hl.
  by eexists.
Qed.

Lemma missing_metrics_present (m : pydict) (fields : list string) :
  (∀ f, f ∈ fields → is_Some (m !! f)) →
  missing_metrics (PDict m) fields = Ok [].
Proof.
  intros H. apply missing_metrics_nil. intros f Hf. cbn. unfold has_key.
  by rewrite bool_decide_true by auto.
Qed.

(** The validator and the extractor fit: every metrics record that
    [get_ad_metrics] returns holds the seven metrics that
    [_check_required_fields] requires, each as a number, so that no metric
    is reported missing and, on an ad that carries these metrics (and whose
    breakdowns, if any, are a dict), [validate_ad_data] returns a verdict:
    none of its comparisons raises. *)
Theorem extracted_metrics_validate repr_other spend_threshold days_threshold
  today (response m ad_data : pydict) :
  get_ad_metrics response = Ok m →
  ad_data !! "metrics" = Some (PDict m) →
  (∀ b, ad_data !! "breakdowns" = Some b → is_dict b = true) →
  missing_metrics (PDict m) metric_fields = Ok [] ∧
  ∃ is_valid issues,
    validate_ad_data repr_other spend_threshold days_threshold today ad_data
    = Ok (is_valid, issues).
Proof.
  intros Hm Hmetrics Hb.
  assert (∀ f, f ∈ validated_metrics →
               ∃ v, m !! f = Some v ∧ is_int_or_float v = true) as Hnum.
  { intros f Hf. by eapply get_ad_metrics_numeric. }
  assert (∀ f, f ∈ metric_fields →
               ∃ v, m !! f = Some v ∧ is_int_or_float v = true) as Hseven.
  { intros f Hf. apply Hnum. unfold validated_metrics. set_solver. }
  assert (missing_metrics (PDict m) metric_fields = Ok []) as Hmissing.
  { apply missing_metrics_present. intros f Hf.
    destruct (Hseven f Hf) as (v & -> & _). by eexists. }
  split; [done|].
  assert (∀ f dflt, f ∈ validated_metrics →
            is_int_or_float (dget m f dflt) = true) as Hget.
  { intros f dflt Hf. destruct (Hnum f Hf) as (v & Hv & Hn).
    by rewrite (dget_Some _ _ _ _ Hv). }
  assert (∃ l, missing_breakdowns ad_data = Ok l) as [lb Hlb].
  { unfold missing_breakdowns.
    destruct (ad_data !! "breakdowns") as [b|] eqn:Hbd; [|by eexists].
    specialize (Hb b eq_refl). destruct b as [| | | | | |d]; try done.
    cbn. unfold has_key. destruct (d !! "age_gender") as [v|] eqn:Hv.
    - rewrite bool_decide_true by eauto. cbn. by eexists.
    - rewrite bool_decide_false by (by intros [? ?]). by eexists. }
  assert (∃ b, check_spend_threshold spend_threshold ad_data = Ok b)
    as [spend_ok Hspend].
  { unfold check_spend_threshold. rewrite Hmetrics. cbn [py_get mbind result_bind].
    apply (numeric_compared py_ge); [by auto|].
    apply Hget. unfold validated_metrics. set_solver. }
  assert (∃ l, check_anomalies repr_other ad_data = Ok l) as [anomalies Ha].
  { unfold check_anomalies. rewrite Hmetrics. cbn [py_get mbind result_bind].
    destruct (numeric_compared py_gt (dget m "ctr" (PInt 0)) (NFloat 10))
      as [b1 ->]; [by auto|apply Hget; unfold validated_metrics; set_solver|].
    cbn [mbind result_bind].
    assert (∃ b, (if py_eq_num (dget m "impressions" (PInt 0)) (NInt 0)
                  then py_gt (dget m "spend" (PInt 0)) (NInt 0)
                  else Ok false) = Ok b) as [b2 ->].
    { destruct (py_eq_num _ _); [|by eexists].
      apply (numeric_compared py_gt); [by auto|].
      apply Hget. unfold validated_metrics. set_solver. }
    cbn [mbind result_bind].
    destruct (negative_values_numeric repr_other m metric_fields Hseven)
      as [l3 ->].
    cbn [mbind result_bind].
    destruct (numeric_compared py_gt (dget m "clicks" (PInt 0)) (NInt 0))
      as [b4 ->]; [by auto|apply Hget; unfold validated_metrics; set_solver|].
    cbn [mbind result_bind].
    assert (∃ b, (if b4 then
                    n ← the_num (dget m "clicks" (PInt 0));
                    py_gt (dget m "conversions" (PInt 0)) n
                  else Ok false) = Ok b) as [b5 ->].
    { destruct b4; [|by eexists].
      destruct (numeric_the_num (dget m "clicks" (PInt 0))) as [n ->];
        [apply Hget; unfold validated_metrics; set_solver|].
      cbn [mbind result_bind].
      apply (numeric_compared py_gt); [by auto|].
      apply Hget. unfold validated_metrics. set_solver. }
    cbn [mbind result_bind].
    destruct (numeric_compared py_gt (dget m "roas" (PInt 0)) (NFloat 20))
      as [b6 ->]; [by auto|apply Hget; unfold validated_metrics; set_solver|].
    cbn [mbind result_bind]. by eexists. }
  unfold validate_ad_data, check_required_fields.
  rewrite Hmetrics, Hmissing, Hlb, Hspend, Ha. cbn [mbind result_bind].
  unfold dget at 1. rewrite Hmetrics. cbn [default py_get mbind result_bind].
  destruct spend_ok; cbn [mbind result_bind]; by eexists _, _.
Qed.

Lemma extracted_metrics_validate_witness :
  missing_metrics (PDict empty_metrics) metric_fields = Ok [] ∧
  ∃ is_valid issues,
    validate_ad_data sample_repr (NFloat 250) 7 sample_clock
      (<["metrics" := PDict empty_metrics]> sample_ad)
    = Ok (is_valid, issues).
Proof.
  apply (extracted_metrics_validate sample_repr (NFloat 250) 7 sample_clock
           ∅ empty_metrics (<["metrics" := PDict empty_metrics]> sample_ad)).
  - reflexivity.
  - reflexivity.
  - intros b Hb. vm_compute in Hb. by injection Hb as <-.
Defined.

End DataValidatorChecksFacts.

(** ** Facts about the analysis of an ad *)

Module AnalysisFacts.
Import PerformanceAnalyzer.

Lemma truthy_dict_with (d : pydict) (k : string) (v : pyval) :
  d !! k = Some v → truthy (PDict d) = true.
Proof.
  intros H. cbn. destruct (map_to_list d) as [|kv l] eqn:Hl; [|done].
  apply map_to_list_empty_iff in Hl as ->. by rewrite lookup_empty in H.
Qed.

Lemma calculate_benchmarks_truthy (c : meta_client) :
  truthy (PDict (calculate_benchmarks c)) = true.
Proof.
  assert (∃ v, calculate_benchmarks c !! "market" = Some v) as [v Hv];
    [|by eapply truthy_dict_with].
  unfold calculate_benchmarks, no_benchmarks.
  destruct (account_insights c) as [insights|e]; [|by eexists].
  destruct (negb _); [by eexists|]. destruct (bool_decide _); by eexists.
Qed.

Lemma ensure_benchmarks_truthy (a : analyzer) :
  truthy (benchmarks a) = true → ensure_benchmarks a = a.
Proof. unfold ensure_benchmarks. intros ->. by destruct (client a). Qed.

Lemma compare_to_benchmarks_analyzer (a a' : analyzer) (ad_data cmp : pydict) :
  compare_to_benchmarks a ad_data = Ok (cmp, a') → a' = ensure_benchmarks a.
Proof.
  unfold compare_to_benchmarks. intros H. inv_binds H. by injection H as _ <-.
Qed.

Lemma compare_to_benchmarks_keys (a a' : analyzer) (ad_data cmp : pydict) :
  compare_to_benchmarks a ad_data = Ok (cmp, a') →
  ∃ score rating,
    cmp !! "overall_performance_score" = Some score ∧
    cmp !! "performance_rating" = Some (PStr rating).
Proof.
  unfold compare_to_benchmarks. intros H. inv_binds H. injection H as <- _.
  by eexists _, _.
Qed.

Lemma analyze_performance_analyzer repr_other (a : analyzer) date
  (ad_data : pydict) :
  (analyze_performance repr_other a date ad_data).1
  = ensure_benchmarks (ensure_benchmarks a).
Proof.
  unfold analyze_performance.
  destruct (compare_to_benchmarks _ _) as [[cmp a']|e] eqn:H; [|done].
  by apply compare_to_benchmarks_analyzer in H.
Qed.

(** Benchmarks are calculated at most once, and a failed calculation is
    kept: the first [analyze_performance] of an analyzer that has a client
    and no benchmarks stores what [calculate_benchmarks] returns, which is
    the fallback [{"market": "Error", "benchmarks": {}}] when
    [get_account_insights] raised; from then on no call of
    [analyze_performance] changes the benchmarks, whatever client the
    analyzer has. *)
Theorem benchmarks_calculated_once repr_other (a : analyzer)
  (c : meta_client) date (ad_data : pydict) :
  client a = Some c →
  truthy (benchmarks a) = false →
  let a1 := (analyze_performance repr_other a date ad_data).1 in
  a1 = {| client := Some c; benchmarks := PDict (calculate_benchmarks c) |} ∧
  (raises (account_insights c) →
   benchmarks a1 = PDict (no_benchmarks "Error")) ∧
  ∀ c' date' ad_data',
    (analyze_performance repr_other
       {| client := c'; benchmarks := benchmarks a1 |} date' ad_data').1
    = {| client := c'; benchmarks := benchmarks a1 |}.
Proof.
  intros Hc Hb. cbv zeta. rewrite analyze_performance_analyzer.
  assert (ensure_benchmarks a
          = {| client := Some c; benchmarks := PDict (calculate_benchmarks c) |})
    as ->.
  { unfold ensure_benchmarks. by rewrite Hc, Hb. }
  rewrite ensure_benchmarks_truthy by apply calculate_benchmarks_truthy.
  split; [done|]. split.
  - cbn [benchmarks]. unfold calculate_benchmarks.
    by destruct (account_insights c).
  - intros c' date' ad'. rewrite analyze_performance_analyzer.
    cbn [benchmarks].
    rewrite (ensure_benchmarks_truthy {| client := c' |})
      by apply calculate_benchmarks_truthy.
    by rewrite ensure_benchmarks_truthy by apply calculate_benchmarks_truthy.
Qed.

Definition failing_client : meta_client :=
  {| region := "GBR"; account_insights := Raise OtherError |}.

Definition fresh_analyzer : analyzer :=
  {| client := Some failing_client; benchmarks := PNone |}.

Lemma benchmarks_calculated_once_witness :
  let a1 := (analyze_performance (λ _, "") fresh_analyzer "2026-11-04" ∅).1 in
  a1 = {| client := Some failing_client;
          benchmarks := PDict (calculate_benchmarks failing_client) |} ∧
  (raises (account_insights failing_client) →
   benchmarks a1 = PDict (no_benchmarks "Error")) ∧
  ∀ c' date' ad_data',
    (analyze_performance (λ _, "")
       {| client := c'; benchmarks := benchmarks a1 |} date' ad_data').1
    = {| client := c'; benchmarks := benchmarks a1 |}.
Proof.
  apply (benchmarks_calculated_once (λ _, "") fresh_analyzer failing_client
           "2026-11-04" ∅); reflexivity.
Defined.

Lemma analyze_segments_best repr_other (a : analyzer)
  (ad_data segments : pydict) :
  analyze_segments repr_other a ad_data = Ok segments →
  ∃ best, segments !! "best_segments" = Some (PList best) ∧
          (ad_data !! "breakdowns" = None → best = []).
Proof.
  unfold analyze_segments. intros H.
  destruct (ad_data !! "breakdowns") as [breakdowns|].
  - inv_bind H. destruct (negb a0).
    + injection H as <-. by exists [].
    + inv_binds H. destruct (rank_segments a3) as [[b w] st].
      inv_binds H. injection H as <-. eexists. split; [by map_simpl|done].
  - injection H as <-. by exists [].
Qed.

(** What [analyze_performance] reports: when it returns, the rating and
    the score of the analysis are those of [compare_to_benchmarks] (the
    defaults ['Unknown'] and [0] are never used), the best segment is the
    first of the best segments of [analyze_segments], and it is ['Unknown']
    when there is none, in particular for an ad without ['breakdowns']. *)
Theorem analysis_reports_comparison repr_other (a : analyzer) date
  (ad_data analysis : pydict) :
  (analyze_performance repr_other a date ad_data).2 = Ok analysis →
  ∃ cmp a' segments best score rating,
    compare_to_benchmarks (ensure_benchmarks a) ad_data = Ok (cmp, a') ∧
    analyze_segments repr_other a' ad_data = Ok segments ∧
    segments !! "best_segments" = Some (PList best) ∧
    cmp !! "overall_performance_score" = Some score ∧
    cmp !! "performance_rating" = Some (PStr rating) ∧
    analysis !! "performance_score" = Some score ∧
    analysis !! "performance_rating" = Some (PStr rating) ∧
    analysis !! "best_segment" = Some (default (PStr "Unknown") (head best)) ∧
    (ad_data !! "breakdowns" = None →
     analysis !! "best_segment" = Some (PStr "Unknown")).
Proof.
  unfold analyze_performance.
  destruct (compare_to_benchmarks _ _) as [[cmp a']|e] eqn:Hcmp; [|done].
  cbn [snd]. intros H.
  apply bind_Ok in H as (segments & Hseg & H). cbv zeta in H.
  apply bind_Ok in H as (best_segment & Hbs & H). injection H as <-.
  destruct (compare_to_benchmarks_keys _ _ _ _ Hcmp)
    as (score & rating & Hscore & Hrating).
  destruct (analyze_segments_best _ _ _ _ Hseg) as (best & Hbest & Hnone).
  exists cmp, a', segments, best, score, rating. do 5 (split; [done|]).
  rewrite (dget_Some _ _ _ _ Hscore), (dget_Some _ _ _ _ Hrating).
  split; [by map_simpl|]. split; [by map_simpl|].
  assert (best_segment = default (PStr "Unknown") (head best)) as ->.
  { unfold best_segment_of in Hbs. rewrite !(dget_Some _ _ _ _ Hbest) in Hbs.
    destruct best as [|x l]; cbn in Hbs; by injection Hbs as <-. }
  split; [by map_simpl|].
  intros Hn. rewrite (Hnone Hn). by map_simpl.
Qed.

Definition bare : analyzer := {| client := None; benchmarks := PNone |}.

Definition bare_ad : pydict :=
  {["ad_id" := PStr "12345"; "ad_name" := PStr "Test Ad"]}.

(** The analysis of [bare_ad] by an analyzer without client. *)
Definition bare_analysis : pydict :=
  match (analyze_performance (λ _, "") bare "2026-11-04" bare_ad).2 with
  | Ok analysis => analysis
  | Raise _ => ∅
  end.

Lemma analysis_reports_comparison_witness :
  ∃ cmp a' segments best score rating,
    compare_to_benchmarks (ensure_benchmarks bare) bare_ad = Ok (cmp, a') ∧
    analyze_segments (λ _, "") a' bare_ad = Ok segments ∧
    segments !! "best_segments" = Some (PList best) ∧
    cmp !! "overall_performance_score" = Some score ∧
    cmp !! "performance_rating" = Some (PStr rating) ∧
    bare_analysis !! "performance_score" = Some score ∧
    bare_analysis !! "performance_rating" = Some (PStr rating) ∧
    bare_analysis !! "best_segment"
    = Some (default (PStr "Unknown") (head best)) ∧
    (bare_ad !! "breakdowns" = None →
     bare_analysis !! "best_segment" = Some (PStr "Unknown")).
Proof.
  apply (analysis_reports_comparison (λ _, "") bare "2026-11-04" bare_ad
           bare_analysis).
  vm_compute. reflexivity.
Defined.

End AnalysisFacts.

(** ** Facts about the breakdown rows *)

Module BreakdownFacts.
Import MetaApiClient.

(** The keys that [_format_breakdown_data] computes for every row. *)
Definition computed_keys : list string :=
  ["spend"; "cpm"; "impressions"; "cpc"; "clicks"; "outbound_clicks";
   "ctr_destination"; "video_3_sec_views"; "video_p100_watched"; "hook_rate";
   "viewthrough_rate"; "registrations"; "cpr"; "click_to_reg"].

(** An entry of [actions] whose type is on the allow-list. *)
Definition is_registration (action : pyval) : bool :=
  match action with
  | PDict d => in_registration_types (dget d "action_type" PNone)
  | _ => false
  end.

Lemma copy_labels_lookup (fields : list string) (item acc : pydict) (f : string) :
  copy_labels fields item acc !! f
  = if bool_decide (f ∈ fields) then Some (dget item f (PStr "unknown"))
    else acc !! f.
Proof.
  revert acc. induction fields as [|g fields IH]; intros acc; cbn [copy_labels].
  - by rewrite bool_decide_false by apply not_elem_of_nil.
  - rewrite IH. destruct (decide (f ∈ fields)) as [Hin|Hout].
    + by rewrite !bool_decide_true by (done || by right).
    + rewrite (bool_decide_false (f ∈ fields)) by done.
      destruct (decide (f = g)) as [->|Hne].
      * rewrite bool_decide_true by (by left). by rewrite lookup_insert_eq.
      * rewrite bool_decide_false by (by intros [?|?]%elem_of_cons).
        by rewrite lookup_insert_ne.
Qed.

Lemma first_registration_find {A} (conv : pyval → result A)
  (actions : list pyval) (found : A) :
  Forall (λ a, is_dict a = true) actions →
  first_registration conv actions found
  = match List.find is_registration actions with
    | Some action => v ← py_get action "value" (PInt 0); conv v
    | None => Ok found
    end.
Proof.
  induction 1 as [|action actions Hd _ IH]; [done|].
  destruct action as [| | | | | |d]; try done.
  cbn [first_registration List.find is_registration py_get mbind result_bind].
  by destruct (in_registration_types _).
Qed.

Lemma format_breakdown_item_shape (fields : list string) (item m : pydict) :
  format_breakdown_item fields item = Ok m →
  ∃ registrations,
    registration_lookup py_int (dget item "actions" (PList [])) 0
    = Ok registrations ∧
    m !! "registrations" = Some (PInt registrations) ∧
    ∀ f, f ∈ fields → f ∉ computed_keys →
         m !! f = Some (dget item f (PStr "unknown")).
Proof.
  intros H. unfold format_breakdown_item in H. inv_binds H.
  injection H as <-.
  match goal with
  | H : registration_lookup py_int _ _ = Ok ?r |- _ => exists r; split; [done|]
  end.
  split; [by map_simpl|].
  intros f Hf Hnot.
  assert (∀ k, k ∈ computed_keys → k ≠ f) as Hne.
  { intros k Hk ->. done. }
  unfold computed_keys in Hne.
  rewrite !lookup_insert_ne by (apply Hne; set_solver).
  match goal with
  | H : (if 0 <? ?i then _ else _) = Ok ?fi |- ?fi !! f = _ =>
      destruct (0 <? i); [inv_binds H|]; injection H as <-
  end;
    rewrite !lookup_insert_ne by (apply Hne; set_solver);
    rewrite copy_labels_lookup; by rewrite bool_decide_true.
Qed.

(** The allow-list of the registrations: the [registrations] of a formatted
    breakdown row are [int(value)] of the first entry of the row's
    [actions] whose [action_type] is [lead], [complete_registration] or
    [lead_grouped], and 0 when the list has no such entry; entries of any
    other type never contribute. *)
Theorem registrations_first_allowed (fields : list string) (item m : pydict)
  (actions : list pyval) :
  format_breakdown_item fields item = Ok m →
  dget item "actions" (PList []) = PList actions →
  Forall (λ a, is_dict a = true) actions →
  ∃ registrations,
    m !! "registrations" = Some (PInt registrations) ∧
    match List.find is_registration actions with
    | Some action =>
        (v ← py_get action "value" (PInt 0); py_int v) = Ok registrations
    | None => registrations = 0
    end.
Proof.
  intros H Ha Hd.
  apply format_breakdown_item_shape in H as (r & Hr & Hm & _).
  exists r. split; [done|].
  rewrite Ha in Hr. unfold registration_lookup in Hr.
  destruct actions as [|a actions]; [by injection Hr as <-|].
  cbn [truthy py_iter mbind result_bind] in Hr.
  rewrite first_registration_find in Hr by done.
  destruct (List.find _ _); [done|by injection Hr as <-].
Qed.

Definition row_with_actions : pydict :=
  {["age" := PStr "25-34"; "gender" := PStr "female"; "spend" := PStr "25.0";
    "actions" := PList
      [PDict {["action_type" := PStr "link_click"; "value" := PStr "100"]};
       PDict {["action_type" := PStr "lead"; "value" := PStr "3"]};
       PDict {["action_type" := PStr "complete_registration";
               "value" := PStr "7"]}]]}.

Definition formatted_row : pydict :=
  match format_breakdown_item ["age"; "gender"] row_with_actions with
  | Ok m => m
  | Raise _ => ∅
  end.

Lemma registrations_first_allowed_witness :
  ∃ registrations,
    formatted_row !! "registrations" = Some (PInt registrations) ∧
    match
      List.find is_registration
        [PDict {["action_type" := PStr "link_click"; "value" := PStr "100"]};
         PDict {["action_type" := PStr "lead"; "value" := PStr "3"]};
         PDict {["action_type" := PStr "complete_registration";
                 "value" := PStr "7"]}]
    with
    | Some action =>
        (v ← py_get action "value" (PInt 0); py_int v) = Ok registrations
    | None => registrations = 0
    end.
Proof.
  apply (registrations_first_allowed ["age"; "gender"] row_with_actions
           formatted_row
           [PDict {["action_type" := PStr "link_click"; "value" := PStr "100"]};
            PDict {["action_type" := PStr "lead"; "value" := PStr "3"]};
            PDict {["action_type" := PStr "complete_registration";
                    "value" := PStr "7"]}]).
  - vm_compute. reflexivity.
  - reflexivity.
  - repeat constructor.
Defined.

(** One row out for each row in: when [_format_breakdown_data] returns, it
    returns as many rows as it was given, in the same order, and every row
    carries the labels of its raw row (['unknown'] for a label the raw row
    lacks), for every breakdown field that is not the name of a computed
    metric. *)
Theorem breakdown_rows_keep_labels (raw : list pydict) (fields : list string)
  (out : list pydict) :
  format_breakdown_data raw fields = Ok out →
  length out = length raw ∧
  ∀ (i : nat) item, raw !! i = Some item →
    ∃ m, out !! i = Some m ∧
         ∀ f, f ∈ fields → f ∉ computed_keys →
              m !! f = Some (dget item f (PStr "unknown")).
Proof.
  intros H. split; [by eapply MetaApiClientFacts.format_breakdown_data_length|].
  intros i item Hi.
  destruct (MetaApiClientFacts.format_breakdown_data_lookup _ _ _ _ _ H Hi)
    as (m & Hm & Hitem).
  exists m. split; [done|].
  by apply format_breakdown_item_shape in Hitem as (_ & _ & _ & ?).
Qed.

Definition two_rows : list pydict :=
  [{["age" := PStr "25-34"; "gender" := PStr "female"; "spend" := PStr "25.0"]};
   {["age" := PStr "18-24"; "impressions" := PStr "10"]}].

Definition two_formatted : list pydict :=
  match format_breakdown_data two_rows ["age"; "gender"] with
  | Ok out => out
  | Raise _ => []
  end.

Lemma breakdown_rows_keep_labels_witness :
  length two_formatted = length two_rows ∧
  ∀ (i : nat) item, two_rows !! i = Some item →
    ∃ m, two_formatted !! i = Some m ∧
         ∀ f, f ∈ ["age"; "gender"] → f ∉ computed_keys →
              m !! f = Some (dget item f (PStr "unknown")).
Proof.
  apply (breakdown_rows_keep_labels two_rows ["age"; "gender"] two_formatted).
  vm_compute. reflexivity.
Defined.

End BreakdownFacts.
